(** * Checklist block tool (src/index.js): a shallow embedding and its properties

  The tool keeps its whole state in the DOM: one wrapper element whose
  children are the item elements; an item carries its checked flag as a
  CSS class, its indentation level as the string attribute
  [dataset.level], and its text as the content of an editable field.
  The embedding below follows the class method by method.

  Conventions of the model
  - a JS string is the list of its UTF-16 code units;
  - the numbers the tool computes with are indentation levels. In
    [JsNumber] a number is either [NaN] or an integer; integers are added
    exactly and written in plain decimal. That is what JS does as long as
    the integers stay within 2^53 in magnitude; [Double] has the same
    operations on doubles, with rounding, the infinities and the exponent
    form of [String], and the two are proved to agree on that range.
    Statements about levels beyond it are made on [Double];
  - the content of a text field is its markup, a string. The text of an
    item given to [createChecklistItem] is taken to be such markup as the
    field gives back when read (a bare ampersand, which the field would
    give back as an entity, is not);
  - the cut of a field at the caret is made by utils.js, which is not
    among the sources: it is a parameter, of which only what the
    specification fixes is assumed;
  - an element is named by its position among the wrapper's children,
    which is how the source finds it again ([items.indexOf]);
  - a handler returns [Ok] with the next state, or [Throw] when the
    source dereferences [null]. The wrapper is taken to be in the
    document, so that it has a parent element. *)

From Stdlib Require Import ZArith NArith String Ascii List Lia Bool.
From stdpp Require Import base list.
Import ListNotations.

Local Open Scope Z_scope.

(* ================================================================== *)
(** ** JS strings *)
(* ================================================================== *)

Module JsString.

(** UTF-16 code units. *)
Definition jsstring := list N.

(** A literal: every character of the ASCII literal is one code unit. *)
Definition lit (s : string) : jsstring :=
  map N_of_ascii (list_ascii_of_string s).

(** WhiteSpace and LineTerminator code points of ECMAScript, the
    characters [String.prototype.trim] and [parseInt] skip. *)
Definition is_white_space (c : N) : bool :=
  ((9 <=? c) && (c <=? 13) || (c =? 32) || (c =? 160) || (c =? 5760)
   || (8192 <=? c) && (c <=? 8202) || (c =? 8232) || (c =? 8233)
   || (c =? 8239) || (c =? 8287) || (c =? 12288) || (c =? 65279))%N.

Fixpoint dropWhile (p : N -> bool) (s : jsstring) : jsstring :=
  match s with
  | [] => []
  | c :: s' => if p c then dropWhile p s' else s
  end.

Fixpoint takeWhile (p : N -> bool) (s : jsstring) : jsstring :=
  match s with
  | [] => []
  | c :: s' => if p c then c :: takeWhile p s' else []
  end.

Definition trimStart (s : jsstring) : jsstring := dropWhile is_white_space s.
Definition trimEnd (s : jsstring) : jsstring :=
  rev (dropWhile is_white_space (rev s)).

(** [String.prototype.trim] *)
Definition trim (s : jsstring) : jsstring := trimEnd (trimStart s).

(** [Array.prototype.join] on an array of strings. *)
Fixpoint join (sep : jsstring) (l : list jsstring) : jsstring :=
  match l with
  | [] => []
  | [x] => x
  | x :: rest => x ++ sep ++ join sep rest
  end.

End JsString.
Import JsString.

(* ================================================================== *)
(** ** JS numbers, as far as levels need them *)
(* ================================================================== *)

Module JsNumber.

Inductive number : Type :=
| NaN
| Num (z : Z).

(** The argument of [setLevel]: a level read from persisted data may be
    absent. *)
Inductive value : Type :=
| Undefined
| Number (n : number).

Definition number_eq_dec (a b : number) : {a = b} + {a <> b}.
Proof. decide equality. apply Z.eq_dec. Defined.

(** ToBoolean on a number: [NaN] and [0] are falsy. *)
Definition truthy (n : number) : bool :=
  match n with
  | NaN => false
  | Num z => negb (z =? 0)
  end.

(** ToNumber: [undefined] becomes [NaN]. *)
Definition ToNumber (v : value) : number :=
  match v with
  | Undefined => NaN
  | Number n => n
  end.

(** [v || 0] *)
Definition or_zero (v : value) : number :=
  match v with
  | Undefined => Num 0
  | Number n => if truthy n then n else Num 0
  end.

Definition add (a b : number) : number :=
  match a, b with
  | Num x, Num y => Num (x + y)
  | _, _ => NaN
  end.

Definition sub (a b : number) : number :=
  match a, b with
  | Num x, Num y => Num (x - y)
  | _, _ => NaN
  end.

Definition mul (a b : number) : number :=
  match a, b with
  | Num x, Num y => Num (x * y)
  | _, _ => NaN
  end.

(** [a > b]: every comparison with [NaN] is false. *)
Definition gt (a b : number) : bool :=
  match a, b with
  | Num x, Num y => y <? x
  | _, _ => false
  end.

(** [Math.max(a, b)] *)
Definition max (a b : number) : number :=
  match a, b with
  | Num x, Num y => Num (Z.max x y)
  | _, _ => NaN
  end.

(** *** Number to string *)

Definition digit_char (d : Z) : N := Z.to_N (48 + d).

(** Decimal digits of a non-negative integer, most significant first;
    [fuel] bounds the number of divisions. *)
Fixpoint digits_fuel (fuel : nat) (n : Z) (acc : jsstring) : jsstring :=
  let acc' := digit_char (n mod 10) :: acc in
  match fuel with
  | O => acc'
  | S f => if n <? 10 then acc' else digits_fuel f (n / 10) acc'
  end.

Definition digits (n : Z) : jsstring :=
  digits_fuel (Z.to_nat (Z.log2 n)) n [].

(** ToString on a number: an integer is written in decimal. *)
Definition ToString (n : number) : jsstring :=
  match n with
  | NaN => lit "NaN"
  | Num z => if z <? 0 then 45%N :: digits (- z) else digits z
  end.

(** *** parseInt *)

(** The value of a digit in radix 10 or 16. *)
Definition digit_value (c : N) : option Z :=
  if ((48 <=? c) && (c <=? 57))%N then Some (Z.of_N c - 48)
  else if ((97 <=? c) && (c <=? 102))%N then Some (Z.of_N c - 87)
  else if ((65 <=? c) && (c <=? 70))%N then Some (Z.of_N c - 55)
  else None.

Definition is_radix_digit (R : Z) (c : N) : bool :=
  match digit_value c with
  | Some d => d <? R
  | None => false
  end.

Definition radix_value (R : Z) (ds : jsstring) : Z :=
  fold_left (fun a c => a * R + default 0 (digit_value c)) ds 0.

(** The digits of [parseInt]: a [0x] or [0X] prefix selects radix 16, and
    the longest prefix of digits is read; no digit at all gives [None]. *)
Definition parse_magnitude (S1 : jsstring) : option Z :=
  let '(R, S2) :=
    match S1 with
    | c0 :: c1 :: r =>
        if ((c0 =? 48) && ((c1 =? 120) || (c1 =? 88)))%N then (16, r)
        else (10, S1)
    | _ => (10, S1)
    end in
  match takeWhile (is_radix_digit R) S2 with
  | [] => None
  | ds => Some (radix_value R ds)
  end.

(** [parseInt(s)] with no radix argument: leading white space is
    skipped, a sign is read, then the digits; no digit gives [NaN]. *)
Definition parseInt (s : jsstring) : number :=
  let S0 := trimStart s in
  let '(sign, S1) :=
    match S0 with
    | c :: r =>
        if (c =? 45)%N then (-1, r)          (* - *)
        else if (c =? 43)%N then (1, r)      (* + *)
        else (1, S0)
    | [] => (1, S0)
    end in
  match parse_magnitude S1 with
  | None => NaN
  | Some m => Num (sign * m)
  end.

End JsNumber.
Import JsNumber.


(* ================================================================== *)
(** ** Tool data *)
(* ================================================================== *)

Module Data.

(** [ChecklistItem]: a field of a persisted object may be missing. *)
Record ChecklistItem : Type := {
  text : option jsstring;
  checked : option bool;
  level : value
}.

(** [ChecklistData] *)
Record ChecklistData : Type := {
  items : option (list ChecklistItem)
}.

End Data.

Abbreviation ChecklistItem := Data.ChecklistItem.
Abbreviation ChecklistData := Data.ChecklistData.

(** The string an array element contributes to [join]: a missing one
    contributes nothing. *)
Definition text_or_empty (item : ChecklistItem) : jsstring :=
  default [] (Data.text item).

(* ================================================================== *)
(** ** Errors *)
(* ================================================================== *)

Inductive exn : Type :=
| TypeError.

Inductive result (A : Type) : Type :=
| Ok (a : A)
| Throw (e : exn).

Arguments Ok {A} a.
Arguments Throw {A} e.

#[global] Instance result_ret : MRet result := fun A a => Ok a.

#[global] Instance result_bind : MBind result := fun A B k r =>
  match r with
  | Ok a => k a
  | Throw e => Throw e
  end.

(** Reading a property of [null] or [undefined]. *)
Definition deref {A : Type} (o : option A) : result A :=
  match o with
  | Some a => Ok a
  | None => Throw TypeError
  end.

(* ================================================================== *)
(** ** The DOM the tool owns *)
(* ================================================================== *)

(** What [getLevel] and [setLevel] touch on an element. [paddingLeft] is
    the string handed to the style property. *)
Record element : Type := {
  dataset_level : option jsstring;
  paddingLeft : jsstring
}.

(** A [.cdx-checklist__item] element with its checkbox container and its
    text field. *)
Record item_el : Type := {
  el : element;
  itemChecked : bool;        (* class cdx-checklist__item--checked *)
  noHover : bool;            (* class ...--no-hover on the checkbox container *)
  mouseleave_once : nat;     (* one-shot listeners waiting on the container *)
  innerHTML : jsstring;      (* content of the text field *)
  contentEditable : bool
}.

(** Calls made on the editor API. *)
Inductive api_call : Type :=
| blocks_insert
| caret_setToBlock (index : Z).

(** A tool instance together with the part of the document it reads. *)
Record Checklist : Type := {
  readOnly : bool;
  data : ChecklistData;
  wrapper : list item_el;        (* the item children of the wrapper *)
  holder : element;              (* wrapper.parentElement *)
  activeElement : option nat;    (* the item whose text field has focus *)
  focusOffset : nat;             (* caret position in the markup of that
                                    field; 0 is [selection.focusOffset === 0]
                                    with the caret in the first node *)
  currentBlockIndex : Z;         (* api.blocks.getCurrentBlockIndex() *)
  api_calls : list api_call      (* oldest first *)
}.

Definition set_el (it : item_el) (e : element) : item_el :=
  {| el := e; itemChecked := itemChecked it; noHover := noHover it;
     mouseleave_once := mouseleave_once it; innerHTML := innerHTML it;
     contentEditable := contentEditable it |}.

Definition set_innerHTML (it : item_el) (h : jsstring) : item_el :=
  {| el := el it; itemChecked := itemChecked it; noHover := noHover it;
     mouseleave_once := mouseleave_once it; innerHTML := h;
     contentEditable := contentEditable it |}.

Definition set_checkbox (it : item_el) (c h : bool) (n : nat) : item_el :=
  {| el := el it; itemChecked := c; noHover := h;
     mouseleave_once := n; innerHTML := innerHTML it;
     contentEditable := contentEditable it |}.

Definition set_wrapper (this : Checklist) (w : list item_el) : Checklist :=
  {| readOnly := readOnly this; data := data this; wrapper := w;
     holder := holder this; activeElement := activeElement this;
     focusOffset := focusOffset this;
     currentBlockIndex := currentBlockIndex this;
     api_calls := api_calls this |}.

Definition set_holder (this : Checklist) (e : element) : Checklist :=
  {| readOnly := readOnly this; data := data this; wrapper := wrapper this;
     holder := e; activeElement := activeElement this;
     focusOffset := focusOffset this;
     currentBlockIndex := currentBlockIndex this;
     api_calls := api_calls this |}.

Definition set_selection (this : Checklist) (a : option nat) (off : nat)
  : Checklist :=
  {| readOnly := readOnly this; data := data this; wrapper := wrapper this;
     holder := holder this; activeElement := a; focusOffset := off;
     currentBlockIndex := currentBlockIndex this;
     api_calls := api_calls this |}.

Definition call_api (this : Checklist) (c : api_call) : Checklist :=
  {| readOnly := readOnly this; data := data this; wrapper := wrapper this;
     holder := holder this; activeElement := activeElement this;
     focusOffset := focusOffset this;
     currentBlockIndex := currentBlockIndex this;
     api_calls := api_calls this ++ [c] |}.

(** [get items]: the item elements in document order. *)
Definition items (this : Checklist) : list item_el := wrapper this.

(** [node.closest('.cdx-checklist__item')] for a node given by the item
    it sits in, with the index [items.indexOf] finds it at; [None] is
    [null]: the node has no item above it. *)
Definition closest (this : Checklist) (node : option nat)
  : option (nat * item_el) :=
  match node with
  | Some i => match items this !! i with
              | Some it => Some (i, it)
              | None => None
              end
  | None => None
  end.

(** [items.indexOf(item)] *)
Definition indexOf (item : option (nat * item_el)) : Z :=
  match item with
  | Some (i, _) => Z.of_nat i
  | None => -1
  end.

(** [items[k]] *)
Definition at_index (l : list item_el) (k : Z) : option item_el :=
  if k <? 0 then None else l !! Z.to_nat k.

(* ================================================================== *)
(** ** Levels as doubles *)
(* ================================================================== *)

(** The integers of [JsNumber] are exact. A number of the engine is a
    double: it holds every integer up to 2^53 in magnitude, above that
    only those with 53 significant bits, and it has the two infinities.
    [String] writes it with the fewest digits that read back, in
    exponent form from 10^21 on. This module has the operations on levels
    over such numbers, with the integers among the doubles as finite
    values (no operation of the tool on integers leaves them). It shows
    where the exact integers stop being what the code computes. *)
Module Double.

Inductive number : Type :=
| NaN
| Infinity (negative : bool)
| Fin (z : Z).

Inductive value : Type :=
| Undefined
| Number (n : number).

Definition number_eq_dec (a b : number) : {a = b} + {a <> b}.
Proof. decide equality; [apply Bool.bool_dec | apply Z.eq_dec]. Defined.

(** The double nearest to the integer [x]. Up to 2^53 in magnitude it is
    [x]; beyond, the 53 leading bits are kept and the rest is rounded to
    nearest, a tie to the even significand; what would reach 2^1024 is an
    infinity. *)
Definition round (x : Z) : number :=
  let a := Z.abs x in
  if a <=? 2 ^ 53 then Fin x
  else
    let e := Z.log2 a - 52 in
    let q := a / 2 ^ e in
    let r := a mod 2 ^ e in
    let half := 2 ^ (e - 1) in
    let q' := if r <? half then q
              else if half <? r then q + 1
              else if Z.even q then q else q + 1 in
    let m := q' * 2 ^ e in
    if 2 ^ 1024 <=? m then Infinity (x <? 0) else Fin (Z.sgn x * m).

(** ToBoolean: [NaN] and [0] are falsy. *)
Definition truthy (n : number) : bool :=
  match n with
  | NaN => false
  | Infinity _ => true
  | Fin z => negb (z =? 0)
  end.

Definition ToNumber (v : value) : number :=
  match v with
  | Undefined => NaN
  | Number n => n
  end.

(** [v || 0] *)
Definition or_zero (v : value) : number :=
  match v with
  | Undefined => Fin 0
  | Number n => if truthy n then n else Fin 0
  end.

(** [a + b]: the exact sum, rounded. *)
Definition add (a b : number) : number :=
  match a, b with
  | Fin x, Fin y => round (x + y)
  | Infinity s, Fin _ => Infinity s
  | Fin _, Infinity s => Infinity s
  | Infinity s, Infinity t => if Bool.eqb s t then Infinity s else NaN
  | _, _ => NaN
  end.

(** [a * b]: the exact product, rounded. *)
Definition mul (a b : number) : number :=
  match a, b with
  | Fin x, Fin y => round (x * y)
  | Infinity s, Fin y => if y =? 0 then NaN else Infinity (xorb s (y <? 0))
  | Fin x, Infinity s => if x =? 0 then NaN else Infinity (xorb s (x <? 0))
  | Infinity s, Infinity t => Infinity (xorb s t)
  | _, _ => NaN
  end.

(** [Math.max(a, b)] *)
Definition max (a b : number) : number :=
  match a, b with
  | NaN, _ => NaN
  | _, NaN => NaN
  | Infinity false, _ => Infinity false
  | _, Infinity false => Infinity false
  | Infinity true, _ => b
  | _, Infinity true => a
  | Fin x, Fin y => Fin (Z.max x y)
  end.

(** *** Number to string *)

(** The decimal [m] reads back as the double [z]. *)
Definition reads_back (z m : Z) : bool :=
  if number_eq_dec (round m) (Fin z) then true else false.

(** Among the multiples of [p], a power of ten, the two next to [z]: the
    one that reads back as [z]; of two that do, the nearer, and of two
    equally near the one with the even last digit. *)
Definition pick (z p : Z) : option Z :=
  let lo := z / p * p in
  let hi := lo + p in
  match reads_back z lo, reads_back z hi with
  | true, true =>
      if z - lo <? hi - z then Some lo
      else if hi - z <? z - lo then Some hi
      else if Z.even (z / p) then Some lo else Some hi
  | true, false => Some lo
  | false, true => Some hi
  | false, false => None
  end.

(** The decimal with the fewest significant digits that reads back as
    [z]: the multiples of 10^j are tried from the largest [j] down. *)
Fixpoint shortest_from (j : nat) (z : Z) : Z :=
  match pick z (10 ^ Z.of_nat j) with
  | Some m => m
  | None =>
      match j with
      | O => z
      | S j' => shortest_from j' z
      end
  end.

Definition shortest (z : Z) : Z := shortest_from (Z.to_nat (Z.log2 z)) z.

(** Exponent form: the significant digits with a point after the first,
    then [e+] and the decimal exponent. *)
Definition exponential (m : Z) : jsstring :=
  let ds := JsNumber.digits m in
  let e := JsNumber.digits (Z.of_nat (length ds) - 1) in
  match rev (dropWhile (N.eqb 48) (rev ds)) with
  | [] => ds
  | [d] => d :: lit "e+" ++ e
  | d :: more => d :: 46%N :: more ++ lit "e+" ++ e
  end.

(** Number::toString of a positive integer: all the digits of the
    shortest decimal when there are 21 at most, else exponent form. *)
Definition positive_ToString (z : Z) : jsstring :=
  let m := shortest z in
  if m <? 10 ^ 21 then JsNumber.digits m else exponential m.

Definition ToString (n : number) : jsstring :=
  match n with
  | NaN => lit "NaN"
  | Infinity s => if s then lit "-Infinity" else lit "Infinity"
  | Fin z =>
      if z =? 0 then lit "0"
      else if z <? 0 then 45%N :: positive_ToString (- z)
      else positive_ToString z
  end.

(** The exact number as a double. *)
Definition of_exact (n : JsNumber.number) : number :=
  match n with
  | JsNumber.NaN => NaN
  | JsNumber.Num z => round z
  end.

(** [parseInt(s)]: the integer the digits denote, as a double. (Past 20
    significant digits an engine may read the further digits as zeros;
    the strings [String] writes have 17 at most.) *)
Definition parseInt (s : jsstring) : number :=
  of_exact (JsNumber.parseInt s).

(** *** The level of an element *)

(** [getTabPadding(level)] *)
Definition getTabPadding (level : value) : jsstring :=
  ToString (mul (ToNumber level) (Fin 2)) ++ lit "em".

(** [getLevel(item)] *)
Definition getLevel (item : element) : number :=
  match dataset_level item with
  | Some (c :: s) => parseInt (c :: s)
  | _ => Fin 0
  end.

(** [setLevel(item, level)] *)
Definition setLevel (item : element) (level : value) : element :=
  {| dataset_level := Some (ToString (or_zero level));
     paddingLeft := getTabPadding level |}.

(** [updateLevel(event, delta)], on the element it finds. *)
Definition updateLevel (delta : number) (item : element) : element :=
  let oldLevel := getLevel item in
  let newLevel := max (Fin 0) (add oldLevel delta) in
  setLevel item (Number newLevel).

End Double.

(* ================================================================== *)
(** ** utils.js *)
(* ================================================================== *)

(** [getItemInput(el)]: the text field of an item, given by its content. *)
Definition getItemInput (el : item_el) : jsstring := innerHTML el.

(** Modelled from the spec: [getHTML] of utils.js, which is not among the
    sources. Section 4.4 has save read the text "from the live region
    content": the text of an item is the content of its field. *)
Definition getHTML (input : jsstring) : jsstring := input.

(** Modelled from the spec: the cut that [extractContentAfterCaret] of
    utils.js makes in the content of the focused field. Section 4.1: the
    content strictly before the caret stays in the field and the content
    strictly after it is produced, each as well-formed markup, so that a
    caret inside an element leaves that element closed on the one side
    and opened again on the other. The spec does not say how; it fixes
    the two ends: with the caret at the start all the content comes after
    it and nothing stays, with the caret at the end nothing comes after
    it. The cut is therefore a parameter of the development, and only
    these two laws are assumed of it. The caret is given as a position
    in the markup of the field, 0 at its start and the length at its
    end. *)
Class CaretSplitter : Type := {
  splitAtCaret : jsstring -> nat -> jsstring * jsstring;
  splitAtCaret_start : forall s, splitAtCaret s 0 = ([], s);
  splitAtCaret_end : forall s, splitAtCaret s (length s) = (s, [])
}.

(** A cut that knows no markup: the code units before the position and
    those from it on. It is the cut of a field that holds plain text, and
    serves the examples. *)
Definition plainSplit (s : jsstring) (n : nat) : jsstring * jsstring :=
  (take n s, drop n s).

(** The cut of plain text obeys the two laws of the splitter. *)
Definition plain_splitter : CaretSplitter.
Proof.
  refine {| splitAtCaret := plainSplit |}.
  - reflexivity.
  - intros s. unfold plainSplit. now rewrite firstn_all, drop_all.
Defined.

Section Tool.

Context {splitter : CaretSplitter}.

(** Modelled from the spec: [extractContentAfterCaret] of utils.js.
    Section 4.1: it produces the content strictly after the caret, removes
    it from the focused region and leaves there the content strictly
    before the caret. With no focused region there is nothing to
    extract. *)
Definition extractContentAfterCaret (this : Checklist)
  : jsstring * Checklist :=
  match closest this (activeElement this) with
  | Some (i, it) =>
      let '(before, after) :=
        splitAtCaret (innerHTML it) (focusOffset this) in
      (after, set_wrapper this (<[i := set_innerHTML it before]> (items this)))
  | None => ([], this)
  end.

(** Modelled from the spec: [fragmentToHtml] of utils.js, "produce markup
    string from a content fragment" (section 4.1); a fragment is kept as
    its markup. *)
Definition fragmentToHtml (fragment : jsstring) : jsstring := fragment.

(** Modelled from the spec: [moveCaret] of utils.js (section 4.2): the
    caret goes into the field of item [i], at the start when [toStart],
    else at [offset]. *)
Definition moveCaret (this : Checklist) (i : nat) (toStart : bool)
  (offset : nat) : Checklist :=
  set_selection this (Some i) (if toStart then 0%nat else offset).

(* ================================================================== *)
(** ** The class [Checklist] *)
(* ================================================================== *)

(** [conversionConfig.export] *)
Definition exportToPlainText (data : ChecklistData) : result jsstring :=
  d ← deref (Data.items data);
  mret (join (lit ". ") (text_or_empty <$> d)).

(** [conversionConfig.import] *)
Definition importFromPlainText (s : jsstring) : ChecklistData :=
  {| Data.items :=
       Some [ {| Data.text := Some s;
                 Data.checked := Some false;
                 Data.level := Number (Num 0) |} ] |}.

(** [getTabPadding(level)]: [level * 2 + 'em'] *)
Definition getTabPadding (level : value) : jsstring :=
  ToString (mul (ToNumber level) (Num 2)) ++ lit "em".

(** [getLevel(item)]: an absent or empty attribute reads as [0]. *)
Definition getLevel (item : element) : number :=
  match dataset_level item with
  | Some (c :: s) => parseInt (c :: s)
  | _ => Num 0
  end.

(** [setLevel(item, level)]: the attribute holds the string of
    [level || 0]. *)
Definition setLevel (item : element) (level : value) : element :=
  {| dataset_level := Some (ToString (or_zero level));
     paddingLeft := getTabPadding level |}.

(** [createChecklistItem(item)]; [item.text] becomes the markup of the
    field. *)
Definition createChecklistItem (this : Checklist) (item : ChecklistItem)
  : item_el :=
  let checkListItem :=
    {| el := {| dataset_level := None; paddingLeft := [] |};
       itemChecked := false;
       noHover := false;
       mouseleave_once := 0;
       innerHTML := match Data.text item with
                    | Some (c :: s) => c :: s
                    | _ => []
                    end;
       contentEditable := negb (readOnly this) |} in
  let checkListItem :=
    match Data.checked item with
    | Some true => set_checkbox checkListItem true false 0
    | _ => checkListItem
    end in
  set_el checkListItem (setLevel (el checkListItem) (Data.level item)).

(** The constructor: [this.data = data || {}]; nothing is rendered yet. *)
Definition constructor (d : option ChecklistData) (ro : bool)
  (blockIndex : Z) : Checklist :=
  {| readOnly := ro;
     data := default {| Data.items := None |} d;
     wrapper := [];
     holder := {| dataset_level := None; paddingLeft := [] |};
     activeElement := None;
     focusOffset := 0;
     currentBlockIndex := blockIndex;
     api_calls := [] |}.

(** The item [render] puts into a tool without data. *)
Definition emptyItem : ChecklistItem :=
  {| Data.text := Some [];
     Data.checked := Some false;
     Data.level := Number (Num 0) |}.

(** [render()]: a fresh wrapper with one element per item of the data. *)
Definition render (this : Checklist) : Checklist :=
  let d :=
    match Data.items (data this) with
    | None => [emptyItem]
    | Some l => l
    end in
  {| readOnly := readOnly this;
     data := {| Data.items := Some d |};
     wrapper := createChecklistItem this <$> d;
     holder := holder this;
     activeElement := activeElement this;
     focusOffset := focusOffset this;
     currentBlockIndex := currentBlockIndex this;
     api_calls := api_calls this |}.

(** [save()] *)
Definition save (this : Checklist) : ChecklistData :=
  let saved :=
    (fun itemEl =>
       let input := getItemInput itemEl in
       {| Data.text := Some (getHTML input);
          Data.checked := Some (itemChecked itemEl);
          Data.level := Number (getLevel (el itemEl)) |})
    <$> items this in
  let saved :=
    filter (fun item => length (trim (text_or_empty item)) <> 0%nat)
           saved in
  {| Data.items := Some saved |}.

(** [validate(savedData)]: [!!savedData.items.length] *)
Definition validate (savedData : ChecklistData) : result bool :=
  l ← deref (Data.items savedData);
  mret (negb (Z.of_nat (length l) =? 0)).

(** Where a click lands. *)
Inductive click_target : Type :=
| on_wrapper                  (* on the wrapper, beside the items *)
| in_checkbox (i : nat)       (* in the checkbox container of item [i] *)
| in_item (i : nat).          (* elsewhere in item [i] *)

Definition click_item (t : click_target) : option nat :=
  match t with
  | on_wrapper => None
  | in_checkbox i => Some i
  | in_item i => Some i
  end.

(** [checkbox.contains(event.target)] *)
Definition checkbox_contains (t : click_target) : bool :=
  match t with
  | in_checkbox _ => true
  | _ => false
  end.

(** [toggleCheckbox(event)] *)
Definition toggleCheckbox (target : click_target) (this : Checklist)
  : result Checklist :=
  let checkListItem := closest this (click_item target) in
  '(i, it) ← deref checkListItem;
  if checkbox_contains target then
    mret (set_wrapper this
            (<[i := set_checkbox it (negb (itemChecked it)) true
                      (S (mouseleave_once it))]> (items this)))
  else mret this.

(** [removeSpecialHoverBehavior(el)], on the checkbox container of an
    item. *)
Definition removeSpecialHoverBehavior (it : item_el) : item_el :=
  set_checkbox it (itemChecked it) false (mouseleave_once it).

(** The pointer leaves the checkbox of item [i]: the one-shot listeners
    that wait there run and are gone. *)
Definition mouseleave (i : nat) (this : Checklist) : Checklist :=
  match items this !! i with
  | Some it =>
      match mouseleave_once it with
      | O => this
      | S _ =>
          let it := removeSpecialHoverBehavior it in
          set_wrapper this
            (<[i := set_checkbox it (itemChecked it) (noHover it) 0]>
               (items this))
      end
  | None => this
  end.

(** [enterPressed(event)]; the event target is the focused element. *)
Definition enterPressed (this : Checklist) : result Checklist :=
  let items := items this in
  let currentItem := closest this (activeElement this) in
  let currentItemIndex := indexOf currentItem in
  let isLastItem := currentItemIndex =? Z.of_nat (length items) - 1 in
  '(i, it) ← deref currentItem;
  let itemLevel := getLevel (el it) in
  if gt itemLevel (Num 0)
     && (length (getHTML (getItemInput it)) =? 0)%nat then
    mret (set_wrapper this
            (<[i := set_el it
                      (setLevel (el it) (Number (sub itemLevel (Num 1))))]>
               items))
  else if isLastItem && (length (getHTML (getItemInput it)) =? 0)%nat then
    let currentBlockIndex := currentBlockIndex this in
    let this := set_selection (set_wrapper this (delete i items)) None 0 in
    let this := call_api this blocks_insert in
    mret (call_api this (caret_setToBlock (currentBlockIndex + 1)))
  else
    let '(fragmentAfterCaret, this) := extractContentAfterCaret this in
    let htmlAfterCaret := fragmentToHtml fragmentAfterCaret in
    let newItem :=
      createChecklistItem this
        {| Data.text := Some htmlAfterCaret;
           Data.checked := Some false;
           Data.level := Number itemLevel |} in
    let w := wrapper this in
    let this := set_wrapper this (take (S i) w ++ newItem :: drop (S i) w) in
    mret (moveCaret this (S i) true 0).

(** [backspace(event)]; with the caret at the start, the extraction
    empties the focused field, which is the current item's, and leaves
    the previous item as it was. The caret then goes to the child-node
    offset the previous field ended at, which is the position in its
    markup where the appended content begins. *)
Definition backspace (this : Checklist) : result Checklist :=
  let currentItem := closest this (activeElement this) in
  let currentIndex := indexOf currentItem in
  let prevItem := at_index (items this) (currentIndex - 1) in
  match prevItem with
  | None => mret this
  | Some prevItem =>
      if negb (focusOffset this =? 0)%nat then mret this
      else
        let '(fragmentAfterCaret, this) := extractContentAfterCaret this in
        let prevItemInput := getItemInput prevItem in
        let prevItemChildNodesLength := length prevItemInput in
        let p := Z.to_nat (currentIndex - 1) in
        let this :=
          set_wrapper this
            (<[p := set_innerHTML prevItem
                      (prevItemInput ++ fragmentAfterCaret)]> (items this)) in
        let this := moveCaret this p false prevItemChildNodesLength in
        mret (set_wrapper this
                (delete (Z.to_nat currentIndex) (items this)))
  end.

(** [updateLevel(event, delta)]: the parent of the event target is the
    item when the target is a text field, and the holder when the target
    is the wrapper. (A target without a parent element, on which the
    source would throw, is not a state of this model.) *)
Definition updateLevel (delta : number) (this : Checklist)
  : result Checklist :=
  match closest this (activeElement this) with
  | Some (i, it) =>
      let oldLevel := getLevel (el it) in
      let newLevel := max (Num 0) (add oldLevel delta) in
      mret (set_wrapper this
              (<[i := set_el it (setLevel (el it) (Number newLevel))]>
                 (items this)))
  | None =>
      let oldLevel := getLevel (holder this) in
      let newLevel := max (Num 0) (add oldLevel delta) in
      mret (set_holder this (setLevel (holder this) (Number newLevel)))
  end.

Definition tab (this : Checklist) : result Checklist :=
  updateLevel (Num 1) this.

Definition shiftTab (this : Checklist) : result Checklist :=
  updateLevel (Num (-1)) this.

(** The listeners: [render] binds keydown and click on the wrapper, none
    in read-only mode; [toggleCheckbox] binds the one-shot mouseleave. *)
Inductive event : Type :=
| keydown (keyCode : Z) (shiftKey : bool)
| click (target : click_target)
| checkbox_mouseleave (i : nat).

Definition dispatch (e : event) (this : Checklist) : result Checklist :=
  if readOnly this then mret this
  else
    match e with
    | keydown keyCode shiftKey =>
        if keyCode =? 13 then enterPressed this
        else if keyCode =? 9 then
          (if shiftKey then shiftTab this else tab this)
        else if keyCode =? 8 then backspace this
        else mret this
    | click target => toggleCheckbox target this
    | checkbox_mouseleave i => mret (mouseleave i this)
    end.

(* ================================================================== *)
(** ** Vocabulary of the properties *)
(* ================================================================== *)

(** A decimal digit. *)
Definition is_dec (c : N) : Prop := (48 <= c <= 57)%N.

(** What [save] reads off an item element: its text, flag and level. *)
Definition itemData (itemEl : item_el) : ChecklistItem :=
  {| Data.text := Some (getHTML (getItemInput itemEl));
     Data.checked := Some (itemChecked itemEl);
     Data.level := Number (getLevel (el itemEl)) |}.

(** The checklist model: the items the elements stand for, in order. *)
Definition model (this : Checklist) : list ChecklistItem :=
  itemData <$> items this.

(** A persisted item with the defaults for missing fields filled in. *)
Definition materialized (item : ChecklistItem) : ChecklistItem :=
  {| Data.text := Some (text_or_empty item);
     Data.checked := Some (bool_decide (Data.checked item = Some true));
     Data.level := Number (or_zero (Data.level item)) |}.

(** The text of a saved item is not blank. *)
Definition nonblank (item : ChecklistItem) : Prop :=
  exists s, Data.text item = Some s /\ trim s <> [].

(** The level of an element is a non-negative integer. *)
Definition level_ok (e : element) : Prop :=
  exists l, getLevel e = Num l /\ 0 <= l.

Definition all_level_ok (w : list item_el) : Prop :=
  Forall (fun it => level_ok (el it)) w.

Definition levels_ok (this : Checklist) : Prop := all_level_ok (items this).

(** The level a persisted item asks for is a non-negative integer, or is
    missing. *)
Definition data_level_ok (item : ChecklistItem) : Prop :=
  match Data.level item with
  | Undefined => True
  | Number NaN => False
  | Number (Num z) => 0 <= z
  end.




(** What the user does to a field without the tool taking part: placing
    the caret, and typing, which replaces the content of a field. *)
Definition place_caret (a : option nat) (offset : nat) (this : Checklist)
  : Checklist :=
  set_selection this a offset.

Definition type_text (i : nat) (content : jsstring) (this : Checklist)
  : Checklist :=
  match items this !! i with
  | Some it => set_wrapper this (<[i := set_innerHTML it content]> (items this))
  | None => this
  end.

(** The states of a tool: it is rendered from data whose levels are
    well-formed, then driven by the user and by the events it handles. *)
Inductive reachable : Checklist -> Prop :=
| reach_render (d : option ChecklistData) (ro : bool) (blockIndex : Z) :
    (forall l, d = Some {| Data.items := Some l |} ->
               Forall data_level_ok l) ->
    reachable (render (constructor d ro blockIndex))
| reach_caret (this : Checklist) (a : option nat) (offset : nat) :
    reachable this -> reachable (place_caret a offset this)
| reach_type (this : Checklist) (i : nat) (content : jsstring) :
    reachable this -> reachable (type_text i content this)
| reach_dispatch (e : event) (this this' : Checklist) :
    reachable this -> dispatch e this = Ok this' -> reachable this'.


(** *** States used as examples *)

Definition plain (t : string) (l : Z) : ChecklistItem :=
  {| Data.text := Some (lit t);
     Data.checked := Some false;
     Data.level := Number (Num l) |}.

(** A tool rendered from [d], with the caret in item [i] at [offset]. *)
Definition editing (d : list ChecklistItem) (i offset : nat) : Checklist :=
  moveCaret (render (constructor (Some {| Data.items := Some d |}) false 7))
    i false offset.

(** One item "buy milk", the caret after "buy". *)
Definition buy_milk : Checklist := editing [plain "buy milk" 0] 0 3.

(** An item "a" followed by an empty item at level 2, the caret in the
    empty one. *)
Definition nested_empty : Checklist :=
  editing [plain "a" 0; plain "" 2] 1 0.

(** An item "a" followed by an empty item at level 0, the caret in the
    empty one. *)
Definition empty_last : Checklist := editing [plain "a" 0; plain "" 0] 1 0.

(** The "buy milk" state after Enter. *)
Definition buy_milk_split : Checklist :=
  match dispatch (keydown 13 false) buy_milk with
  | Ok this' => this'
  | Throw _ => buy_milk
  end.


(** "buy milk" with the caret at the end of the text. *)
Definition buy_milk_end : Checklist := editing [plain "buy milk" 0] 0 8.

(** Items "buy" and " milk", the caret at the start of the second. *)
Definition buy_and_milk : Checklist :=
  editing [plain "buy" 0; plain " milk" 0] 1 0.

(** The element [render] makes for an item of editable data. *)
Definition rendered (item : ChecklistItem) : item_el :=
  createChecklistItem (constructor None false 7) item.

(** *** Vocabulary of the further properties *)




(** The text of an item is blank: nothing is left of it once trimmed. *)
Definition blank (it : item_el) : Prop :=
  trim (getHTML (getItemInput it)) = [].

(** An item as [save] writes it: every field present, the level a
    non-negative integer. *)
Definition saved_item_ok (item : ChecklistItem) : Prop :=
  (exists s, Data.text item = Some s) /\
  (exists b, Data.checked item = Some b) /\
  (exists z, Data.level item = Number (Num z) /\ 0 <= z).

(** How a handler may change the level of an element: not at all, one
    down from a positive level (Enter on an empty item), or by [d] with
    the floor at 0 (Tab and Shift-Tab). *)
Inductive level_step (e : element) : element -> Prop :=
| level_kept : level_step e e
| level_dedent :
    gt (getLevel e) (Num 0) = true ->
    level_step e (setLevel e (Number (sub (getLevel e) (Num 1))))
| level_moved (d : Z) :
    level_step e
      (setLevel e (Number (max (Num 0) (add (getLevel e) (Num d))))).

(** The shapes of the state after an event has been handled. *)
Inductive outcome (this : Checklist) : Checklist -> Prop :=
| out_same : outcome this this
| out_item (i : nat) (it it' : item_el) :
    items this !! i = Some it ->
    getItemInput it' = getItemInput it ->
    contentEditable it' = contentEditable it ->
    level_step (el it) (el it') ->
    outcome this (set_wrapper this (<[i := it']> (items this)))
| out_holder (e : element) : outcome this (set_holder this e)
| out_exit (i : nat) (it : item_el) :
    items this !! i = Some it ->
    getItemInput it = [] ->
    S i = length (items this) ->
    outcome this
      (call_api
         (call_api
            (set_selection (set_wrapper this (delete i (items this))) None 0)
            blocks_insert)
         (caret_setToBlock (currentBlockIndex this + 1)))
| out_split (i : nat) (it newItem : item_el) :
    items this !! i = Some it ->
    getItemInput newItem
      = snd (splitAtCaret (getItemInput it) (focusOffset this)) ->
    itemChecked newItem = false ->
    contentEditable newItem = negb (readOnly this) ->
    el newItem =
      setLevel {| dataset_level := None; paddingLeft := [] |}
        (Number (getLevel (el it))) ->
    outcome this
      (set_selection
         (set_wrapper this
            (take i (items this)
               ++ set_innerHTML it
                    (fst (splitAtCaret (getItemInput it) (focusOffset this)))
               :: newItem :: drop (S i) (items this)))
         (Some (S i)) 0)
| out_merge (i : nat) (prev cur : item_el) :
    items this !! i = Some prev ->
    items this !! S i = Some cur ->
    outcome this
      (set_wrapper
         (set_selection this (Some i) (length (getItemInput prev)))
         (take i (items this)
            ++ set_innerHTML prev (getItemInput prev ++ getItemInput cur)
            :: drop (S (S i)) (items this))).

(** Unfolds the sequencing of [result]. *)
Ltac result_simpl :=
  unfold mbind, result_bind, mret, result_ret, deref in *.

(* ================================================================== *)
(** ** Numbers and their strings *)
(* ================================================================== *)

Section Digits.

Lemma is_dec_cases c :
  is_dec c ->
  (c = 48 \/ c = 49 \/ c = 50 \/ c = 51 \/ c = 52 \/
   c = 53 \/ c = 54 \/ c = 55 \/ c = 56 \/ c = 57)%N.
Proof. unfold is_dec. lia. Qed.

Ltac dec_cases H :=
  apply is_dec_cases in H;
  repeat (destruct H as [H | H]); subst.

Lemma is_dec_not_space c : is_dec c -> is_white_space c = false.
Proof. intros H. dec_cases H; reflexivity. Qed.

Lemma is_dec_radix10 c : is_dec c -> is_radix_digit 10 c = true.
Proof. intros H. dec_cases H; reflexivity. Qed.

Lemma is_dec_value c : is_dec c -> digit_value c = Some (Z.of_N c - 48).
Proof. intros H. dec_cases H; reflexivity. Qed.

Lemma digit_char_dec d : 0 <= d < 10 -> is_dec (digit_char d).
Proof. unfold is_dec, digit_char. lia. Qed.

Lemma digit_char_value d : 0 <= d < 10 -> Z.of_N (digit_char d) - 48 = d.
Proof. unfold digit_char. lia. Qed.

Lemma takeWhile_all p s : Forall (fun c => p c = true) s -> takeWhile p s = s.
Proof.
  induction 1 as [| c s Hc _ IH]; simpl; [reflexivity |].
  now rewrite Hc, IH.
Qed.

Lemma radix_value_app R s t :
  Forall is_dec t ->
  fold_left (fun a c => a * R + default 0 (digit_value c)) t s =
  fold_left (fun a c => a * R + (Z.of_N c - 48)) t s.
Proof.
  intros H. revert s.
  induction H as [| c t Hc _ IH]; intros s; simpl; [reflexivity |].
  rewrite (is_dec_value c Hc). simpl. apply IH.
Qed.

(** The digits written for [n] are decimal digits, at least one, and
    reading them back in radix 10 onto [a] gives [a] shifted, plus [n]. *)
Lemma digits_fuel_spec fuel :
  forall n acc,
    0 <= n < 2 ^ Z.of_nat (S fuel) ->
    exists ds,
      digits_fuel fuel n acc = ds ++ acc /\ ds <> [] /\ Forall is_dec ds /\
      forall a,
        fold_left (fun a c => a * 10 + (Z.of_N c - 48)) ds a =
        a * 10 ^ Z.of_nat (length ds) + n.
Proof.
  induction fuel as [| f IH]; intros n acc Hn.
  - assert (Hd : 0 <= n < 10) by (change (2 ^ Z.of_nat 1) with 2 in Hn; lia).
    exists [digit_char (n mod 10)]. simpl.
    rewrite Z.mod_small by lia.
    repeat split; [discriminate | | ].
    + constructor; [now apply digit_char_dec | constructor].
    + intros a. rewrite digit_char_value by lia.
      change (Z.pow_pos 10 1) with 10. lia.
  - simpl digits_fuel. destruct (Z.ltb_spec n 10) as [Hlt | Hge].
    + exists [digit_char (n mod 10)]. simpl.
      rewrite Z.mod_small by lia.
      repeat split; [discriminate | | ].
      * constructor; [apply digit_char_dec; lia | constructor].
      * intros a. rewrite digit_char_value by lia.
        change (Z.pow_pos 10 1) with 10. lia.
    + assert (Hdiv : 0 <= n / 10 < 2 ^ Z.of_nat (S f)).
      { split; [apply Z.div_pos; lia |].
        apply Z.div_lt_upper_bound; [lia |].
        replace (Z.of_nat (S (S f))) with (Z.succ (Z.of_nat (S f))) in Hn
          by lia.
        rewrite Z.pow_succ_r in Hn by lia. lia. }
      destruct (IH (n / 10) (digit_char (n mod 10) :: acc) Hdiv)
        as (ds & Heq & Hne & Hall & Hval).
      exists (ds ++ [digit_char (n mod 10)]).
      assert (Hm : 0 <= n mod 10 < 10) by (apply Z.mod_pos_bound; lia).
      repeat split.
      * rewrite Heq, <- app_assoc. reflexivity.
      * destruct ds; discriminate.
      * apply Forall_app. split; [exact Hall |].
        constructor; [now apply digit_char_dec | constructor].
      * intros a. rewrite fold_left_app, Hval. simpl.
        rewrite digit_char_value by lia.
        rewrite length_app, Nat2Z.inj_add. simpl length.
        rewrite Z.pow_add_r by lia.
        change (10 ^ Z.of_nat 1) with 10.
        pose proof (Z.div_mod n 10 ltac:(lia)). lia.
Qed.

Lemma digits_spec n :
  0 <= n ->
  digits n <> [] /\ Forall is_dec (digits n) /\ radix_value 10 (digits n) = n.
Proof.
  intros Hn. unfold digits.
  assert (Hb : 0 <= n < 2 ^ Z.of_nat (S (Z.to_nat (Z.log2 n)))).
  { split; [exact Hn |].
    destruct (Z.eq_dec n 0) as [-> | Hnz]; [reflexivity |].
    rewrite Nat2Z.inj_succ, Z2Nat.id by apply Z.log2_nonneg.
    apply Z.log2_spec. lia. }
  destruct (digits_fuel_spec _ n [] Hb) as (ds & Heq & Hne & Hall & Hval).
  rewrite app_nil_r in Heq. rewrite Heq.
  repeat split; [exact Hne | exact Hall |].
  unfold radix_value. rewrite radix_value_app by exact Hall.
  rewrite Hval. lia.
Qed.

(** Reading the digits of a non-negative integer. *)
Lemma parse_magnitude_digits n : 0 <= n -> parse_magnitude (digits n) = Some n.
Proof.
  intros Hn. destruct (digits_spec n Hn) as (Hne & Hall & Hval).
  unfold parse_magnitude.
  destruct (digits n) as [| c r] eqn:E; [congruence |].
  assert (Htw : takeWhile (is_radix_digit 10) (c :: r) = c :: r).
  { apply takeWhile_all. eapply Forall_impl; [exact Hall |].
    intros x Hx. now apply is_dec_radix10. }
  destruct r as [| c1 r0].
  - cbv beta iota. rewrite Htw, Hval. reflexivity.
  - pose proof (Forall_inv (Forall_inv_tail Hall)) as Hc1.
    replace (c1 =? 120)%N with false
      by (symmetry; apply N.eqb_neq; unfold is_dec in Hc1; lia).
    replace (c1 =? 88)%N with false
      by (symmetry; apply N.eqb_neq; unfold is_dec in Hc1; lia).
    rewrite andb_false_r. cbv beta iota. rewrite Htw, Hval. reflexivity.
Qed.

(** [parseInt] undoes [ToString] on every integer. *)
Lemma parseInt_ToString z : parseInt (ToString (Num z)) = Num z.
Proof.
  unfold ToString, parseInt, trimStart.
  destruct (Z.ltb_spec z 0) as [Hneg | Hpos].
  - change (dropWhile is_white_space (45%N :: digits (- z)))
      with (45%N :: digits (- z)).
    cbv beta iota. change (45 =? 45)%N with true. cbv beta iota.
    rewrite parse_magnitude_digits by lia. f_equal. lia.
  - pose proof (parse_magnitude_digits z Hpos) as Hp.
    destruct (digits_spec z Hpos) as (Hne & Hall & _).
    destruct (digits z) as [| c r] eqn:E; [congruence |].
    pose proof (Forall_inv Hall) as Hc.
    simpl dropWhile. rewrite (is_dec_not_space c Hc).
    replace (c =? 45)%N with false
      by (symmetry; apply N.eqb_neq; unfold is_dec in Hc; lia).
    replace (c =? 43)%N with false
      by (symmetry; apply N.eqb_neq; unfold is_dec in Hc; lia).
    cbv beta iota. rewrite Hp. f_equal. lia.
Qed.

Lemma ToString_nonempty n : ToString n <> [].
Proof.
  destruct n as [| z]; [discriminate |].
  unfold ToString. destruct (Z.ltb_spec z 0); [discriminate |].
  now apply digits_spec.
Qed.

Lemma or_zero_Num v : exists z, or_zero v = Num z.
Proof.
  destruct v as [| [| z]]; simpl; eauto.
  destruct (z =? 0); simpl; eauto.
Qed.

End Digits.

(* ================================================================== *)
(** ** Levels *)
(* ================================================================== *)

Lemma getLevel_setLevel e v : getLevel (setLevel e v) = or_zero v.
Proof.
  unfold getLevel, setLevel. simpl.
  destruct (or_zero_Num v) as [z Hz]. rewrite Hz.
  pose proof (ToString_nonempty (Num z)) as Hne.
  destruct (ToString (Num z)) as [| c s] eqn:E; [congruence |].
  rewrite <- E. apply parseInt_ToString.
Qed.

Lemma or_zero_Number_Num z : or_zero (Number (Num z)) = Num z.
Proof.
  simpl. destruct (Z.eqb_spec z 0) as [-> | Hz]; reflexivity.
Qed.

Lemma getLevel_setLevel_Num e z :
  getLevel (setLevel e (Number (Num z))) = Num z.
Proof. now rewrite getLevel_setLevel, or_zero_Number_Num. Qed.

(* ================================================================== *)
(** ** Levels as doubles: what is exact and what is not *)
(* ================================================================== *)

Lemma round_safe x : Z.abs x <= 2 ^ 53 -> Double.round x = Double.Fin x.
Proof.
  intros H. unfold Double.round. now rewrite (proj2 (Z.leb_le _ _) H).
Qed.

Lemma round_beyond m z :
  2 ^ 53 < m -> Double.round m = Double.Fin z ->
  exists q', 2 ^ 52 <= m / 2 ^ (Z.log2 m - 52) /\
             m / 2 ^ (Z.log2 m - 52) <= q' /\
             z = q' * 2 ^ (Z.log2 m - 52).
Proof.
  intros Hm. unfold Double.round.
  rewrite Z.abs_eq by lia.
  destruct (Z.leb_spec m (2 ^ 53)) as [Hle | _]; [lia |].
  assert (Hlog : 53 <= Z.log2 m).
  { rewrite <- (Z.log2_pow2 53) by lia. apply Z.log2_le_mono. lia. }
  set (e := Z.log2 m - 52) in *.
  assert (Hpow : 0 < 2 ^ e) by (apply Z.pow_pos_nonneg; lia).
  assert (Hq : 2 ^ 52 <= m / 2 ^ e).
  { apply Z.div_le_lower_bound; [exact Hpow |].
    rewrite <- Z.pow_add_r by lia.
    replace (e + 52) with (Z.log2 m) by (unfold e; lia).
    apply Z.log2_spec. lia. }
  cbv zeta.
  match goal with
  | |- (if _ <=? ?q' * _ then _ else _) = _ -> _ => remember q' as q1 eqn:Hq1
  end.
  destruct (2 ^ 1024 <=? q1 * 2 ^ e); [discriminate |].
  intros H. injection H as <-. exists q1.
  rewrite Z.sgn_pos by lia.
  split; [exact Hq |]. split; [| lia].
  subst q1.
  destruct (m mod 2 ^ e <? 2 ^ (e - 1)); [lia |].
  destruct (2 ^ (e - 1) <? m mod 2 ^ e); [lia |].
  destruct (Z.even (m / 2 ^ e)); lia.
Qed.

Lemma round_keeps_1e21 m z :
  10 ^ 21 <= m -> Double.round m = Double.Fin z -> 10 ^ 21 <= z.
Proof.
  intros Hm Hr.
  assert (H53 : 2 ^ 53 < m) by lia.
  destruct (round_beyond m z H53 Hr) as (q' & Hq & Hq' & ->).
  assert (Hlog : 69 <= Z.log2 m).
  { change 69 with (Z.log2 (10 ^ 21)). apply Z.log2_le_mono. exact Hm. }
  destruct (Z.eq_dec (Z.log2 m) 69) as [E | NE].
  - rewrite E in *. change (2 ^ (69 - 52)) with 131072 in *.
    assert (7629394531250000 <= m / 131072).
    { apply Z.div_le_lower_bound; lia. }
    lia.
  - assert (Hp : 2 ^ 18 <= 2 ^ (Z.log2 m - 52))
      by (apply Z.pow_le_mono_r; lia).
    nia.
Qed.

Lemma pick_reads_back z p m :
  Double.pick z p = Some m -> Double.round m = Double.Fin z.
Proof.
  unfold Double.pick, Double.reads_back.
  destruct (Double.number_eq_dec (Double.round (z / p * p)) (Double.Fin z))
    as [Hlo | _];
  destruct (Double.number_eq_dec (Double.round (z / p * p + p)) (Double.Fin z))
    as [Hhi | _];
  try discriminate;
  repeat match goal with
         | |- (if ?c then _ else _) = _ -> _ => destruct c
         end;
  intros H; injection H as <-; assumption.
Qed.

Lemma pick_nonneg z p m :
  0 <= z -> 0 < p -> Double.pick z p = Some m -> 0 <= m.
Proof.
  intros Hz Hp. unfold Double.pick.
  assert (0 <= z / p * p).
  { apply Z.mul_nonneg_nonneg; [| lia]. apply Z.div_pos; lia. }
  repeat match goal with
         | |- match ?c with _ => _ end = _ -> _ => destruct c
         end;
  try discriminate; intros H'; injection H' as <-; lia.
Qed.

Lemma shortest_from_spec z j :
  0 <= z -> Double.round z = Double.Fin z ->
  0 <= Double.shortest_from j z /\
  Double.round (Double.shortest_from j z) = Double.Fin z.
Proof.
  intros Hz Hr. induction j as [| j IH]; cbn [Double.shortest_from].
  - destruct (Double.pick z (10 ^ Z.of_nat 0)) as [m |] eqn:E.
    + split; [apply (pick_nonneg z (10 ^ Z.of_nat 0) m Hz);
                [reflexivity | exact E] |].
      exact (pick_reads_back z _ m E).
    + now split.
  - destruct (Double.pick z (10 ^ Z.of_nat (S j))) as [m |] eqn:E.
    + split; [apply (pick_nonneg z (10 ^ Z.of_nat (S j)) m Hz);
                [apply Z.pow_pos_nonneg; lia | exact E] |].
      exact (pick_reads_back z _ m E).
    + exact IH.
Qed.

Lemma round_opp m z :
  Double.round m = Double.Fin z -> Double.round (- m) = Double.Fin (- z).
Proof.
  unfold Double.round. rewrite Z.abs_opp.
  destruct (Z.abs m <=? 2 ^ 53).
  - intros H. now injection H as <-.
  - cbv zeta.
    match goal with
    | |- (if ?c then _ else _) = _ -> _ => destruct c; [discriminate |]
    end.
    intros H. injection H as <-. f_equal. rewrite Z.sgn_opp. lia.
Qed.

Lemma Double_parseInt_digits m :
  0 <= m -> Double.parseInt (digits m) = Double.round m.
Proof.
  intros Hm. unfold Double.parseInt.
  pose proof (parseInt_ToString m) as H. unfold ToString in H.
  destruct (Z.ltb_spec m 0); [lia |]. now rewrite H.
Qed.

Lemma Double_parseInt_minus_digits m :
  0 < m -> Double.parseInt (45%N :: digits m) = Double.round (- m).
Proof.
  intros Hm. unfold Double.parseInt.
  pose proof (parseInt_ToString (- m)) as H. unfold ToString in H.
  destruct (Z.ltb_spec (- m) 0); [| lia].
  rewrite Z.opp_involutive in H. now rewrite H.
Qed.

(** What [String] writes for a positive integer double below 10^21 is a
    decimal that reads back as that double. *)
Lemma positive_ToString_reads_back z :
  0 < z < 10 ^ 21 -> Double.round z = Double.Fin z ->
  exists m, 0 <= m /\ Double.positive_ToString z = digits m /\
            Double.round m = Double.Fin z.
Proof.
  intros Hz Hr. unfold Double.positive_ToString, Double.shortest.
  destruct (shortest_from_spec z (Z.to_nat (Z.log2 z)) ltac:(lia) Hr)
    as [Hpos Hback].
  set (m := Double.shortest_from (Z.to_nat (Z.log2 z)) z) in *.
  destruct (Z.ltb_spec m (10 ^ 21)) as [Hlt | Hge].
  - exists m. now repeat split.
  - pose proof (round_keeps_1e21 m z Hge Hback). lia.
Qed.

Lemma Double_getLevel_setLevel (item : element) z :
  Z.abs z < 10 ^ 21 -> Double.round z = Double.Fin z ->
  Double.getLevel (Double.setLevel item (Double.Number (Double.Fin z)))
  = Double.Fin z.
Proof.
  intros Hz Hr. unfold Double.getLevel, Double.setLevel.
  cbn [dataset_level Double.or_zero Double.truthy].
  destruct (Z.eqb_spec z 0) as [-> | Hnz]; [reflexivity |].
  cbn [negb Double.ToString].
  destruct (Z.eqb_spec z 0) as [| _]; [contradiction |].
  destruct (Z.ltb_spec z 0) as [Hneg | Hpos].
  - assert (Hr' : Double.round (- z) = Double.Fin (- z)).
    { apply round_opp in Hr. exact Hr. }
    destruct (positive_ToString_reads_back (- z) ltac:(lia) Hr')
      as (m & Hm & -> & Hback).
    assert (Hm0 : 0 < m).
    { destruct (Z.eq_dec m 0) as [-> | ]; [| lia].
      rewrite round_safe in Hback by (cbn; lia).
      injection Hback as Hb. lia. }
    rewrite Double_parseInt_minus_digits by exact Hm0.
    apply round_opp in Hback. now rewrite Z.opp_involutive in Hback.
  - destruct (positive_ToString_reads_back z ltac:(lia) Hr)
      as (m & Hm & -> & Hback).
    destruct (digits_spec m Hm) as (Hne & _).
    destruct (digits m) as [| c s] eqn:E; [congruence |].
    rewrite <- E, Double_parseInt_digits by exact Hm. exact Hback.
Qed.

(** Above 2^53 only 2^53 + 1 rounds down to 2^53. *)
Lemma round_to_2_53 m :
  2 ^ 53 < m -> Double.round m = Double.Fin (2 ^ 53) -> m = 2 ^ 53 + 1.
Proof.
  intros Hm Hr.
  destruct (round_beyond m _ Hm Hr) as (q' & Hq & Hq' & Hz).
  assert (Hlog : 53 <= Z.log2 m).
  { rewrite <- (Z.log2_pow2 53) by lia. apply Z.log2_le_mono. lia. }
  assert (Hp : 2 ^ 1 <= 2 ^ (Z.log2 m - 52))
    by (apply Z.pow_le_mono_r; lia).
  set (P := 2 ^ (Z.log2 m - 52)) in *.
  change (2 ^ 1) with 2 in Hp.
  assert (HP : P = 2) by nia.
  rewrite HP in *.
  assert (Hq2 : m / 2 = 2 ^ 52) by lia.
  pose proof (Z.div_mod m 2 ltac:(lia)) as Hdm.
  pose proof (Z.mod_pos_bound m 2 ltac:(lia)) as Hb.
  lia.
Qed.

(** Up to 2^53 the shortest decimal that reads back is the integer. *)
Lemma pick_safe z j m :
  0 < z <= 2 ^ 53 -> Double.pick z (10 ^ Z.of_nat j) = Some m -> m = z.
Proof.
  intros Hz Hpick.
  assert (Hp : 0 < 10 ^ Z.of_nat j) by (apply Z.pow_pos_nonneg; lia).
  assert (Heven : j <> O -> exists t, 10 ^ Z.of_nat j = 2 * t).
  { destruct j as [| j']; [congruence |]. intros _.
    exists (5 * 10 ^ Z.of_nat j').
    rewrite Nat2Z.inj_succ, Z.pow_succ_r by lia. lia. }
  assert (Hone : j = O -> 10 ^ Z.of_nat j = 1) by now intros ->.
  set (p := 10 ^ Z.of_nat j) in *.
  unfold Double.pick, Double.reads_back in Hpick.
  assert (Hlo : 0 <= z / p * p <= z).
  { split.
    - apply Z.mul_nonneg_nonneg; [| lia]. apply Z.div_pos; lia.
    - rewrite Z.mul_comm. apply Z.mul_div_le. exact Hp. }
  assert (Hdiv : p = 1 -> z / p * p = z).
  { intros ->. rewrite Z.div_1_r. lia. }
  set (k := z / p) in *. clearbody k. clearbody p.
  assert (Hsafe : forall x, 0 <= x <= 2 ^ 53 ->
                    Double.round x = Double.Fin z -> x = z).
  { intros x Hx Hrx. rewrite round_safe in Hrx by (rewrite Z.abs_eq; lia).
    now injection Hrx. }
  assert (Hhi : Double.round (k * p + p) = Double.Fin z ->
                k * p = z \/ k * p + p = z).
  { intros Hr.
    destruct (Z.le_gt_cases (k * p + p) (2 ^ 53)) as [Hle | Hgt].
    - right. apply Hsafe; [lia | exact Hr].
    - left.
      assert (Hz53 : z = 2 ^ 53).
      { destruct (round_beyond _ _ Hgt Hr) as (q' & Hq & Hq' & Hzq).
        assert (Hlog : 53 <= Z.log2 (k * p + p)).
        { rewrite <- (Z.log2_pow2 53) by lia. apply Z.log2_le_mono. lia. }
        assert (Hp2 : 2 ^ 1 <= 2 ^ (Z.log2 (k * p + p) - 52))
          by (apply Z.pow_le_mono_r; lia).
        change (2 ^ 1) with 2 in Hp2. nia. }
      rewrite Hz53 in Hr. apply round_to_2_53 in Hr; [| exact Hgt].
      destruct j as [| j'].
      + apply Hdiv. now apply Hone.
      + exfalso. destruct (Heven ltac:(congruence)) as [t Ht].
        rewrite Ht in Hr. lia. }
  destruct (Double.number_eq_dec (Double.round (k * p)) (Double.Fin z))
    as [Hl | Hl];
  destruct (Double.number_eq_dec (Double.round (k * p + p)) (Double.Fin z))
    as [Hh | Hh]; try discriminate.
  - apply Hsafe in Hl; [| lia].
    rewrite Hl in Hpick.
    replace (z - z <? z + p - z) with true in Hpick
      by (symmetry; apply Z.ltb_lt; lia).
    now injection Hpick as <-.
  - apply Hsafe in Hl; [| lia]. injection Hpick as <-. exact Hl.
  - injection Hpick as <-.
    destruct (Hhi Hh) as [E | E]; [| exact E].
    exfalso. apply Hl. rewrite E. apply round_safe. rewrite Z.abs_eq; lia.
Qed.

Lemma shortest_safe z : 0 < z <= 2 ^ 53 -> Double.shortest z = z.
Proof.
  intros Hz. unfold Double.shortest.
  induction (Z.to_nat (Z.log2 z)) as [| j IH]; cbn [Double.shortest_from].
  - destruct (Double.pick z (10 ^ Z.of_nat 0)) as [m |] eqn:E;
      [exact (pick_safe z 0 m Hz E) | reflexivity].
  - destruct (Double.pick z (10 ^ Z.of_nat (S j))) as [m |] eqn:E;
      [exact (pick_safe z (S j) m Hz E) | exact IH].
Qed.

(** Up to 2^53 [String] writes a double as the exact integer is
    written. *)
Lemma Double_ToString_exact z :
  Z.abs z <= 2 ^ 53 -> Double.ToString (Double.Fin z) = ToString (Num z).
Proof.
  intros Hz. unfold Double.ToString, ToString.
  destruct (Z.eqb_spec z 0) as [-> | Hnz]; [reflexivity |].
  unfold Double.positive_ToString.
  destruct (Z.ltb_spec z 0) as [Hneg | Hpos].
  - rewrite shortest_safe by lia.
    destruct (Z.ltb_spec (- z) (10 ^ 21)) as [_ | Hge]; [reflexivity | lia].
  - rewrite shortest_safe by lia.
    destruct (Z.ltb_spec z (10 ^ 21)) as [_ | Hge]; [reflexivity | lia].
Qed.

(** What [getLevel] reads is the exact integer, as a double. *)
Lemma Double_getLevel_exact (item : element) :
  Double.getLevel item = Double.of_exact (getLevel item).
Proof.
  unfold Double.getLevel, getLevel.
  destruct (dataset_level item) as [[| c s] |]; reflexivity.
Qed.

(** Up to 2^52 in magnitude, [setLevel] on doubles writes what it writes
    on exact integers. *)
Lemma Double_setLevel_exact (item : element) z :
  Z.abs z <= 2 ^ 52 ->
  Double.setLevel item (Double.Number (Double.Fin z))
  = setLevel item (Number (Num z)).
Proof.
  intros Hz. unfold Double.setLevel, setLevel. f_equal.
  - f_equal. cbn [Double.or_zero or_zero Double.truthy truthy].
    destruct (z =? 0); cbn [negb];
      [reflexivity | apply Double_ToString_exact; lia].
  - unfold Double.getTabPadding, getTabPadding.
    cbn [Double.ToNumber ToNumber Double.mul mul].
    rewrite round_safe by lia.
    rewrite Double_ToString_exact by lia. reflexivity.
Qed.

(** One step of [updateLevel] on doubles is the step on exact integers,
    as long as the level and the level it moves to are at most 2^53 in
    magnitude. *)
Lemma Double_updateLevel_exact (e : element) (d : Z) :
  (forall l, getLevel e = Num l ->
             Z.abs l <= 2 ^ 53 /\ Z.abs (l + d) <= 2 ^ 53) ->
  Double.getLevel (Double.updateLevel (Double.Fin d) e)
  = Double.of_exact
      (getLevel (setLevel e (Number (max (Num 0) (add (getLevel e) (Num d)))))).
Proof.
  intros Hrange. unfold Double.updateLevel.
  rewrite (Double_getLevel_exact e).
  destruct (getLevel e) as [| l] eqn:Hl; [reflexivity |].
  destruct (Hrange l eq_refl) as [Hl53 Hld53].
  cbn [Double.of_exact Double.add add max].
  rewrite getLevel_setLevel_Num. cbn [Double.of_exact].
  rewrite (round_safe l) by exact Hl53. cbn [Double.add].
  rewrite (round_safe (l + d)) by exact Hld53. cbn [Double.max].
  rewrite Double_getLevel_setLevel.
  - symmetry. apply round_safe. lia.
  - lia.
  - apply round_safe. lia.
Qed.

(** X22. The exact integers are the doubles, on the levels a tool
    meets. What [getLevel] reads on doubles is the exact reading,
    rounded; for a level of magnitude up to 2^52 [setLevel] writes the
    same attribute and the same padding on both, and up to 2^53 the same
    attribute string; one step of [updateLevel] gives the same level on
    both as long as the level and the level it moves to are within 2^53.
    Beyond, they part: 2^53 + 1 is no double. *)
Theorem exact_levels_are_doubles (item : element) :
  Double.getLevel item = Double.of_exact (getLevel item) /\
  (forall z, Z.abs z <= 2 ^ 52 ->
     Double.setLevel item (Double.Number (Double.Fin z))
     = setLevel item (Number (Num z))) /\
  (forall z, Z.abs z <= 2 ^ 53 ->
     Double.round z = Double.Fin z /\
     Double.ToString (Double.Fin z) = ToString (Num z)) /\
  (forall d,
     (forall l, getLevel item = Num l ->
                Z.abs l <= 2 ^ 53 /\ Z.abs (l + d) <= 2 ^ 53) ->
     Double.getLevel (Double.updateLevel (Double.Fin d) item)
     = Double.of_exact
         (getLevel
            (setLevel item
               (Number (max (Num 0) (add (getLevel item) (Num d))))))) /\
  Double.round (2 ^ 53 + 1) = Double.Fin (2 ^ 53).
Proof.
  split; [apply Double_getLevel_exact |].
  split; [intros z Hz; now apply Double_setLevel_exact |].
  split.
  { intros z Hz. split; [now apply round_safe
                        | now apply Double_ToString_exact]. }
  split; [intros d Hd; now apply Double_updateLevel_exact |].
  vm_compute. reflexivity.
Qed.

(** The strings of some doubles. *)
Example ToString_2_63 :
  Double.ToString (Double.Fin (2 ^ 63)) = lit "9223372036854776000".
Proof. vm_compute. reflexivity. Qed.

Example ToString_1e21 :
  Double.ToString (Double.Fin (10 ^ 21)) = lit "1e+21".
Proof. vm_compute. reflexivity. Qed.

Example ToString_2_70 :
  Double.ToString (Double.Fin (2 ^ 70)) = lit "1.1805916207174113e+21".
Proof. vm_compute. reflexivity. Qed.

Example round_2_53_plus_1 :
  Double.round (2 ^ 53 + 1) = Double.Fin (2 ^ 53) /\
  Double.round (2 ^ 53 + 3) = Double.Fin (2 ^ 53 + 4) /\
  Double.round 123456789012345678901 = Double.Fin 123456789012345683968.
Proof. vm_compute. repeat split. Qed.

(** C10, as the code has it. Level storage round-trips on every
    non-negative integer below 10^21 that a double holds (every integer up
    to 2^53 is one): reading the level of an element just after setting
    it to [L] gives [L] back, through the string kept in
    [dataset.level], which up to 2^53 is [L] in decimal; on such levels
    the exact integers do the same. Setting an absent level stores the
    string of 0. *)
Theorem level_roundtrip (item : element) (L : Z)
  (HL : 0 <= L < 10 ^ 21)
  (Hdouble : Double.round L = Double.Fin L) :
  Double.getLevel (Double.setLevel item (Double.Number (Double.Fin L)))
  = Double.Fin L /\
  (L <= 2 ^ 53 ->
   dataset_level (Double.setLevel item (Double.Number (Double.Fin L)))
   = Some (digits L) /\
   getLevel (setLevel item (Number (Num L))) = Num L) /\
  dataset_level (Double.setLevel item Double.Undefined) = Some (lit "0") /\
  Double.getLevel (Double.setLevel item Double.Undefined) = Double.Fin 0.
Proof.
  split; [apply Double_getLevel_setLevel; [lia | exact Hdouble] |].
  split; [| split; reflexivity].
  intros H53. split; [| apply getLevel_setLevel_Num].
  unfold Double.setLevel. cbn [dataset_level Double.or_zero Double.truthy].
  destruct (Z.eqb_spec L 0) as [-> | Hnz]; [reflexivity |].
  cbn [negb]. rewrite Double_ToString_exact by lia.
  unfold ToString. destruct (Z.ltb_spec L 0); [lia | reflexivity].
Qed.

(** The round trip at level 12. *)
Lemma level_roundtrip_witness :
  0 <= 12 < 10 ^ 21 /\
  Double.round 12 = Double.Fin 12 /\
  Double.getLevel
    (Double.setLevel {| dataset_level := None; paddingLeft := [] |}
       (Double.Number (Double.Fin 12))) = Double.Fin 12.
Proof.
  split; [lia |]. split; [reflexivity |].
  apply (level_roundtrip {| dataset_level := None; paddingLeft := [] |} 12);
    [lia | reflexivity].
Defined.

(** At 10^21 the round trip fails: the level, a double, is stored as
    [1e+21] and read back as 1. *)
Lemma level_roundtrip_fails_at_1e21 :
  0 <= 10 ^ 21 /\
  Double.round (10 ^ 21) = Double.Fin (10 ^ 21) /\
  dataset_level
    (Double.setLevel {| dataset_level := None; paddingLeft := [] |}
       (Double.Number (Double.Fin (10 ^ 21)))) = Some (lit "1e+21") /\
  Double.getLevel
    (Double.setLevel {| dataset_level := None; paddingLeft := [] |}
       (Double.Number (Double.Fin (10 ^ 21)))) = Double.Fin 1 /\
  Double.Fin 1 <> Double.Fin (10 ^ 21).
Proof. vm_compute. repeat split; discriminate. Qed.

(* ================================================================== *)
(** ** Serializer and validator *)
(* ================================================================== *)

Lemma trim_length_nonblank (item : ChecklistItem) s :
  Data.text item = Some s ->
  length (trim (text_or_empty item)) <> 0%nat -> nonblank item.
Proof.
  intros Ht Hlen. exists s. split; [exact Ht |].
  unfold text_or_empty in Hlen. rewrite Ht in Hlen. simpl in Hlen.
  intros E. rewrite E in Hlen. now apply Hlen.
Qed.

Lemma save_items this :
  Data.items (save this) =
  Some (filter (fun item => length (trim (text_or_empty item)) <> 0%nat)
          (model this)).
Proof. reflexivity. Qed.

(** C5. Save filters empties: no item [save] returns has a blank text
    (empty once trimmed), whatever the editing state holds; the items it
    returns are items of the model, in the model's order, with the text,
    flag and level they have there; and every item of the model whose text
    is not blank is returned. *)
Theorem save_filters_empties (this : Checklist) :
  exists saved,
    Data.items (save this) = Some saved /\
    Forall nonblank saved /\
    saved `sublist_of` model this /\
    forall item, item ∈ model this -> nonblank item -> item ∈ saved.
Proof.
  eexists. split; [apply save_items |].
  split; [| split].
  - apply Forall_forall. intros item Hin.
    apply list_elem_of_filter in Hin as [Hlen Hin].
    apply list_elem_of_fmap in Hin as (itemEl & -> & _).
    now apply (trim_length_nonblank _ (getHTML (getItemInput itemEl))).
  - apply sublist_filter.
  - intros item Hin (s & Hs & Hne).
    apply list_elem_of_filter. split; [| exact Hin].
    unfold text_or_empty. rewrite Hs. simpl.
    destruct (trim s); [congruence | discriminate].
Qed.

(** C8. [validate] answers false exactly for an empty item sequence and
    true for every sequence with at least one item. It is a function of
    the saved data alone: it has no state to change. *)
Theorem validate_nonempty (saved : list ChecklistItem) :
  (validate {| Data.items := Some saved |} = Ok false <-> saved = []) /\
  (validate {| Data.items := Some saved |} = Ok true <-> saved <> []) /\
  validate {| Data.items := Some saved |} =
    Ok (negb (Nat.eqb (length saved) 0)).
Proof.
  unfold validate. result_simpl. cbn [Data.items].
  destruct saved as [| item rest].
  - change (negb (Z.of_nat (length (@nil ChecklistItem)) =? 0)) with false.
    repeat split; intros; congruence.
  - cbn [length]. rewrite Nat2Z.inj_succ.
    destruct (Z.eqb_spec (Z.succ (Z.of_nat (length rest))) 0) as [E | _];
      [lia |].
    cbn. repeat split; intros; congruence.
Qed.

(** C9. [exportToPlainText] is the items' texts in item order, with the
    two characters ". " between neighbours; flags and levels play no part;
    texts "a" and "b" export to "a. b". *)
Theorem export_joins_texts :
  exportToPlainText {| Data.items := Some [] |} = Ok [] /\
  (forall x,
     exportToPlainText {| Data.items := Some [x] |} = Ok (text_or_empty x)) /\
  (forall x y l rest,
     exportToPlainText {| Data.items := Some (y :: l) |} = Ok rest ->
     exportToPlainText {| Data.items := Some (x :: y :: l) |} =
     Ok (text_or_empty x ++ lit ". " ++ rest)) /\
  (forall d d' : list ChecklistItem,
     Data.text <$> d = Data.text <$> d' ->
     exportToPlainText {| Data.items := Some d |} =
     exportToPlainText {| Data.items := Some d' |}) /\
  (forall c c' l l',
     exportToPlainText
       {| Data.items := Some
            [ {| Data.text := Some (lit "a"); Data.checked := c;
                 Data.level := l |};
              {| Data.text := Some (lit "b"); Data.checked := c';
                 Data.level := l' |} ] |} = Ok (lit "a. b")).
Proof.
  split; [reflexivity |]. split; [reflexivity |]. split; [| split].
  - intros x y l rest H. injection H as <-. reflexivity.
  - intros d d' Heq. unfold exportToPlainText. result_simpl.
    cbn [Data.items].
    assert (Ht : forall l : list ChecklistItem,
               text_or_empty <$> l = default [] <$> (Data.text <$> l)).
    { intros l. rewrite <- list_fmap_compose. reflexivity. }
    now rewrite !Ht, Heq.
  - reflexivity.
Qed.

(* ================================================================== *)
(** ** Loading *)
(* ================================================================== *)

Lemma itemData_createChecklistItem this item :
  itemData (createChecklistItem this item) = materialized item.
Proof.
  unfold itemData, materialized, createChecklistItem, getHTML, getItemInput,
    text_or_empty.
  destruct item as [t c l]. cbn [Data.text Data.checked Data.level].
  assert (Hl : forall it : item_el,
             getLevel (el (set_el it (setLevel (el it) l))) = or_zero l)
    by (intros; apply getLevel_setLevel).
  destruct c as [[|] |]; rewrite Hl; cbn;
    destruct t as [[| ch s] |]; reflexivity.
Qed.

Lemma model_render_items this l :
  Data.items (data this) = Some l ->
  model (render this) = materialized <$> l.
Proof.
  intros Hl. unfold model, render, items. rewrite Hl. cbn [wrapper].
  rewrite <- list_fmap_compose. apply list_fmap_ext.
  intros _ item _. apply itemData_createChecklistItem.
Qed.




(* ================================================================== *)
(** ** Enter *)
(* ================================================================== *)

Lemma closest_active this i it :
  activeElement this = Some i -> items this !! i = Some it ->
  closest this (activeElement this) = Some (i, it).
Proof. intros -> Hi. unfold closest. now rewrite Hi. Qed.

(** What the extraction does to a focused field, in terms of the cut. *)
Lemma extractContentAfterCaret_eq this i it :
  closest this (activeElement this) = Some (i, it) ->
  extractContentAfterCaret this =
  (snd (splitAtCaret (innerHTML it) (focusOffset this)),
   set_wrapper this
     (<[i := set_innerHTML it
               (fst (splitAtCaret (innerHTML it) (focusOffset this)))]>
        (items this))).
Proof.
  intros Hc. unfold extractContentAfterCaret. rewrite Hc.
  now destruct (splitAtCaret (innerHTML it) (focusOffset this)).
Qed.

Lemma eqb_length_nil (s : jsstring) : s = [] -> (length s =? 0)%nat = true.
Proof. now intros ->. Qed.

Lemma eqb_length_cons (s : jsstring) : s <> [] -> (length s =? 0)%nat = false.
Proof. destruct s; [congruence | reflexivity]. Qed.


(** C3. Enter on the last item, when it is empty and at level 0, removes
    that item and creates none, then asks the host for a new block and
    moves the caret to the block after the checklist's. *)
Theorem enter_on_empty_last_item
  (this : Checklist) (i : nat) (it : item_el)
  (Hfocus : activeElement this = Some i)
  (Hitem : items this !! i = Some it)
  (Hlast : S i = length (items this))
  (Hlevel : getLevel (el it) = Num 0)
  (Hempty : getHTML (getItemInput it) = []) :
  exists this',
    enterPressed this = Ok this' /\
    items this' = take i (items this) /\
    items this = items this' ++ [it] /\
    api_calls this' =
      api_calls this ++
      [blocks_insert; caret_setToBlock (currentBlockIndex this + 1)].
Proof.
  unfold enterPressed.
  rewrite (closest_active this i it Hfocus Hitem). result_simpl.
  rewrite Hlevel, (eqb_length_nil _ Hempty).
  cbn [gt indexOf andb]. change (0 <? 0) with false. cbn [andb].
  replace (Z.of_nat i =? Z.of_nat (length (items this)) - 1) with true
    by (symmetry; apply Z.eqb_eq; lia).
  eexists. split; [reflexivity |].
  unfold items in *.
  cbn [wrapper set_wrapper set_selection call_api api_calls].
  assert (Hdel : delete i (wrapper this) = take i (wrapper this)).
  { rewrite delete_take_drop, drop_ge, app_nil_r; [reflexivity | lia]. }
  rewrite Hdel. split; [reflexivity |]. split.
  - rewrite <- (take_S_r _ _ _ Hitem). symmetry. apply take_ge. lia.
  - now rewrite <- app_assoc.
Qed.

Lemma createChecklistItem_fields this t l :
  let newItem :=
    createChecklistItem this
      {| Data.text := Some t; Data.checked := Some false;
         Data.level := Number (Num l) |} in
  getItemInput newItem = t /\
  itemChecked newItem = false /\
  getLevel (el newItem) = Num l.
Proof.
  cbn zeta. unfold createChecklistItem.
  cbn [Data.text Data.checked Data.level].
  split; [destruct t; reflexivity |]. split; [reflexivity |].
  cbn [el set_el]. apply getLevel_setLevel_Num.
Qed.

(** The third branch of [enterPressed], reached when neither rule for an
    empty item applies. *)
Lemma enterPressed_split this i it l :
  activeElement this = Some i ->
  items this !! i = Some it ->
  getLevel (el it) = Num l ->
  gt (Num l) (Num 0) && (length (getHTML (getItemInput it)) =? 0)%nat
    = false ->
  (Z.of_nat i =? Z.of_nat (length (items this)) - 1)
    && (length (getHTML (getItemInput it)) =? 0)%nat = false ->
  let cut := splitAtCaret (innerHTML it) (focusOffset this) in
  let before := set_innerHTML it (fst cut) in
  let this1 := set_wrapper this (<[i := before]> (items this)) in
  let newItem :=
    createChecklistItem this1
      {| Data.text := Some (snd cut);
         Data.checked := Some false;
         Data.level := Number (Num l) |} in
  enterPressed this =
  Ok (moveCaret
        (set_wrapper this1
           (take i (items this) ++ before :: newItem
              :: drop (S i) (items this)))
        (S i) true 0).
Proof.
  intros Hfocus Hitem Hlevel Hg1 Hg2. cbn zeta.
  unfold enterPressed.
  rewrite (closest_active this i it Hfocus Hitem). result_simpl.
  rewrite Hlevel. cbn [indexOf]. rewrite Hg1, Hg2.
  unfold extractContentAfterCaret.
  rewrite (closest_active this i it Hfocus Hitem).
  destruct (splitAtCaret (innerHTML it) (focusOffset this))
    as [before after].
  unfold fragmentToHtml. cbn [wrapper set_wrapper fst snd].
  unfold items in *.
  pose proof (lookup_lt_Some _ _ _ Hitem) as Hlt.
  rewrite drop_insert_lt by lia.
  rewrite take_insert_lt by lia.
  rewrite (take_S_r _ _ _ Hitem).
  rewrite insert_app_r_alt by (rewrite length_take; lia).
  rewrite length_take, Nat.min_l, Nat.sub_diag by lia.
  cbn [insert list_insert].
  rewrite <- app_assoc. reflexivity.
Qed.

(** C1. Enter on an item that neither rule for empty items handles (its
    text is not empty, or it is empty at level 0 and not the last item)
    splits the field at the caret and creates exactly one item: the new
    item holds the content the splitter puts after the caret, which is
    the markup of the fragment [extractContentAfterCaret] returns; it is
    unchecked, has the level of the current item, and stands immediately
    after the current item, which keeps the content the splitter puts
    before the caret. Every other item stays as it was and the host is
    not called. The two parts are whatever the splitter makes of the
    markup at the caret: nothing is said of them but what its two laws
    say. *)
Theorem enter_splits_item
  (this : Checklist) (i : nat) (it : item_el) (l : Z)
  (Hfocus : activeElement this = Some i)
  (Hitem : items this !! i = Some it)
  (Hlevel : getLevel (el it) = Num l)
  (Hcase : getHTML (getItemInput it) <> [] \/
           (getHTML (getItemInput it) = [] /\ l = 0 /\
            S i <> length (items this))) :
  let cut := splitAtCaret (getItemInput it) (focusOffset this) in
  exists this' newItem,
    enterPressed this = Ok this' /\
    items this' =
      take i (items this)
      ++ set_innerHTML it (fst cut)
      :: newItem :: drop (S i) (items this) /\
    length (items this') = S (length (items this)) /\
    items this' !! S i = Some newItem /\
    getItemInput newItem =
      fragmentToHtml (fst (extractContentAfterCaret this)) /\
    getItemInput newItem = snd cut /\
    itemChecked newItem = false /\
    getLevel (el newItem) = getLevel (el it) /\
    activeElement this' = Some (S i) /\
    focusOffset this' = 0%nat /\
    api_calls this' = api_calls this.
Proof.
  cbn zeta.
  pose proof (lookup_lt_Some _ _ _ Hitem) as Hlt.
  assert (Hg :
    gt (Num l) (Num 0) && (length (getHTML (getItemInput it)) =? 0)%nat
      = false /\
    (Z.of_nat i =? Z.of_nat (length (items this)) - 1)
      && (length (getHTML (getItemInput it)) =? 0)%nat = false).
  { destruct Hcase as [Hne | (He & -> & Hnl)].
    - rewrite (eqb_length_cons _ Hne), !andb_false_r. now split.
    - split; [reflexivity |].
      replace (Z.of_nat i =? Z.of_nat (length (items this)) - 1) with false;
        [reflexivity |].
      symmetry. apply Z.eqb_neq. lia. }
  destruct Hg as [Hg1 Hg2].
  pose proof (enterPressed_split this i it l Hfocus Hitem Hlevel Hg1 Hg2)
    as Hsplit.
  cbn zeta in Hsplit.
  eexists _, _. split; [exact Hsplit |].
  unfold moveCaret, items, getItemInput in *.
  cbn [wrapper set_wrapper set_selection api_calls activeElement focusOffset].
  match goal with
  | |- context [createChecklistItem ?t ?d] =>
      destruct (createChecklistItem_fields t
                  (snd (splitAtCaret (innerHTML it) (focusOffset this))) l)
        as (Htext & Hchecked & Hlev)
  end.
  cbn zeta in Htext, Hchecked, Hlev. unfold getItemInput in Htext.
  split; [reflexivity |].
  split.
  { rewrite length_app, length_take. cbn [length]. rewrite length_drop. lia. }
  split.
  { rewrite lookup_app_r by (rewrite length_take; lia).
    rewrite length_take, Nat.min_l by lia.
    replace (S i - i)%nat with 1%nat by lia. reflexivity. }
  split.
  { unfold extractContentAfterCaret.
    rewrite (closest_active this i it Hfocus Hitem).
    destruct (splitAtCaret (innerHTML it) (focusOffset this)).
    exact Htext. }
  split; [exact Htext |]. split; [exact Hchecked |].
  split; [rewrite Hlevel; exact Hlev |]. repeat split.
Qed.

(* ================================================================== *)
(** ** Handlers without a current item *)
(* ================================================================== *)

(** C4, on the code. With the focus outside every item, [backspace]
    returns without a change and Tab leaves every item as it is (the level
    it writes lands on the wrapper's parent), but [enterPressed] throws:
    it reads the level of the [null] that [closest] returned. A click on
    the wrapper itself makes [toggleCheckbox] throw in the same way, on
    [checkListItem.querySelector]. *)
Theorem handlers_without_current_item (this : Checklist) (offset : nat) :
  let outside := set_selection this None offset in
  enterPressed outside = Throw TypeError /\
  toggleCheckbox on_wrapper this = Throw TypeError /\
  backspace outside = Ok outside /\
  (exists this', tab outside = Ok this' /\ items this' = items outside) /\
  (exists this', shiftTab outside = Ok this' /\ items this' = items outside).
Proof.
  cbn zeta. split; [reflexivity |]. split; [reflexivity |].
  split; [reflexivity |].
  split; eexists; (split; [reflexivity |]); reflexivity.
Qed.

(* ================================================================== *)
(** ** The level invariant *)
(* ================================================================== *)

Section LevelInvariant.

Lemma level_ok_setLevel e z : 0 <= z -> level_ok (setLevel e (Number (Num z))).
Proof. intros Hz. exists z. split; [apply getLevel_setLevel_Num | exact Hz]. Qed.

Lemma ok_lookup w i it :
  all_level_ok w -> w !! i = Some it -> level_ok (el it).
Proof. intros Hok Hi. exact (proj1 (Forall_lookup _ _) Hok i it Hi). Qed.

Lemma updateLevel_item this i it l delta :
  activeElement this = Some i ->
  items this !! i = Some it ->
  getLevel (el it) = Num l ->
  updateLevel (Num delta) this =
  Ok (set_wrapper this
        (<[i := set_el it
                  (setLevel (el it) (Number (Num (Z.max 0 (l + delta)))))]>
           (items this))).
Proof.
  intros Hfocus Hitem Hlevel. unfold updateLevel.
  rewrite (closest_active this i it Hfocus Hitem), Hlevel. reflexivity.
Qed.

Lemma updateLevel_levels_ok delta this this' :
  levels_ok this -> updateLevel (Num delta) this = Ok this' ->
  levels_ok this'.
Proof.
  unfold levels_ok, all_level_ok, updateLevel, closest. intros Hok Hrun.
  destruct (activeElement this) as [i |].
  - destruct (items this !! i) as [it |] eqn:Hitem.
    + destruct (ok_lookup _ _ _ Hok Hitem) as (l & Hl & Hpos).
      rewrite Hl in Hrun. result_simpl. injection Hrun as <-.
      cbn [items wrapper set_wrapper].
      apply Forall_insert; [exact Hok |].
      cbn [el set_el max add]. apply level_ok_setLevel. lia.
    + result_simpl. injection Hrun as <-. exact Hok.
  - result_simpl. injection Hrun as <-. exact Hok.
Qed.

Lemma toggleCheckbox_levels_ok target this this' :
  levels_ok this -> toggleCheckbox target this = Ok this' -> levels_ok this'.
Proof.
  unfold levels_ok, all_level_ok, toggleCheckbox, closest. intros Hok Hrun.
  destruct (click_item target) as [i |]; [| discriminate].
  destruct (items this !! i) as [it |] eqn:Hitem; [| discriminate].
  result_simpl. destruct (checkbox_contains target); injection Hrun as <-;
    [| exact Hok].
  cbn [items wrapper set_wrapper].
  apply Forall_insert; [exact Hok |]. exact (ok_lookup _ _ _ Hok Hitem).
Qed.

Lemma mouseleave_levels_ok i this :
  levels_ok this -> levels_ok (mouseleave i this).
Proof.
  unfold levels_ok, all_level_ok, mouseleave. intros Hok.
  destruct (items this !! i) as [it |] eqn:Hitem; [| exact Hok].
  destruct (mouseleave_once it); [exact Hok |].
  cbn [items wrapper set_wrapper].
  apply Forall_insert; [exact Hok |]. exact (ok_lookup _ _ _ Hok Hitem).
Qed.

Lemma extractContentAfterCaret_levels_ok this :
  levels_ok this -> levels_ok (snd (extractContentAfterCaret this)).
Proof.
  unfold levels_ok, all_level_ok, extractContentAfterCaret, closest. intros Hok.
  destruct (activeElement this) as [i |]; [| exact Hok].
  destruct (items this !! i) as [it |] eqn:Hitem; [| exact Hok].
  destruct (splitAtCaret (innerHTML it) (focusOffset this)).
  cbn [snd items wrapper set_wrapper].
  apply Forall_insert; [exact Hok |]. exact (ok_lookup _ _ _ Hok Hitem).
Qed.

Lemma backspace_levels_ok this this' :
  levels_ok this -> backspace this = Ok this' -> levels_ok this'.
Proof.
  intros Hok Hrun. unfold backspace in Hrun.
  destruct (at_index (items this)
              (indexOf (closest this (activeElement this)) - 1))
    as [prevItem |] eqn:Hprev;
    [| result_simpl; injection Hrun as <-; exact Hok].
  destruct (negb (focusOffset this =? 0)%nat);
    [result_simpl; injection Hrun as <-; exact Hok |].
  pose proof (extractContentAfterCaret_levels_ok this Hok) as Hok1.
  destruct (extractContentAfterCaret this) as [fragment this1].
  cbn [snd] in Hok1. result_simpl. injection Hrun as <-.
  unfold levels_ok, all_level_ok, moveCaret in *.
  cbn [items wrapper set_wrapper set_selection].
  apply Forall_delete. apply Forall_insert; [exact Hok1 |].
  cbn [el set_innerHTML].
  unfold at_index in Hprev.
  destruct (indexOf (closest this (activeElement this)) - 1 <? 0);
    [discriminate |].
  exact (ok_lookup _ _ _ Hok Hprev).
Qed.

Lemma enterPressed_levels_ok this this' :
  levels_ok this -> enterPressed this = Ok this' -> levels_ok this'.
Proof.
  intros Hok Hrun. unfold enterPressed in Hrun.
  pose proof (extractContentAfterCaret_levels_ok this Hok) as Hok1.
  unfold extractContentAfterCaret in *.
  destruct (closest this (activeElement this)) as [[i it] |] eqn:Hc;
    [| discriminate].
  assert (Hitem : items this !! i = Some it).
  { unfold closest in Hc. destruct (activeElement this) as [j |];
      [| discriminate].
    destruct (items this !! j) eqn:E; [| discriminate].
    now injection Hc as <- <-. }
  destruct (ok_lookup _ _ _ Hok Hitem) as (l & Hl & Hpos).
  destruct (splitAtCaret (innerHTML it) (focusOffset this))
    as [before after].
  result_simpl. rewrite Hl in Hrun.
  destruct (gt (Num l) (Num 0)
            && (length (getHTML (getItemInput it)) =? 0)%nat) eqn:Hg1.
  - injection Hrun as <-. unfold levels_ok, all_level_ok.
    cbn [items wrapper set_wrapper].
    apply Forall_insert; [exact Hok |]. cbn [el set_el sub].
    apply level_ok_setLevel.
    apply andb_true_iff in Hg1 as [Hgt _]. cbn [gt] in Hgt.
    apply Z.ltb_lt in Hgt. lia.
  - destruct ((indexOf (Some (i, it)) =? Z.of_nat (length (items this)) - 1)
              && (length (getHTML (getItemInput it)) =? 0)%nat).
    + injection Hrun as <-. unfold levels_ok, all_level_ok.
      cbn [items wrapper set_wrapper set_selection call_api].
      apply Forall_delete. exact Hok.
    + injection Hrun as <-. unfold levels_ok, all_level_ok, moveCaret in *.
      cbn [snd items wrapper set_wrapper set_selection] in *.
      apply Forall_app. split; [now apply Forall_take |].
      constructor; [| now apply Forall_drop].
      unfold createChecklistItem. cbn [Data.checked Data.level el set_el].
      now apply level_ok_setLevel.
Qed.

Lemma dispatch_levels_ok e this this' :
  levels_ok this -> dispatch e this = Ok this' -> levels_ok this'.
Proof.
  intros Hok Hrun. unfold dispatch in Hrun.
  destruct (readOnly this); [result_simpl; now injection Hrun as <- |].
  destruct e as [keyCode shiftKey | target | i].
  - destruct (keyCode =? 13); [now apply (enterPressed_levels_ok this) |].
    destruct (keyCode =? 9).
    { destruct shiftKey;
        now apply (updateLevel_levels_ok _ this this' Hok Hrun). }
    destruct (keyCode =? 8); [now apply (backspace_levels_ok this) |].
    result_simpl. now injection Hrun as <-.
  - now apply (toggleCheckbox_levels_ok target this).
  - result_simpl. injection Hrun as <-. now apply mouseleave_levels_ok.
Qed.

End LevelInvariant.

(* ================================================================== *)
(** ** Tab and Shift-Tab *)
(* ================================================================== *)





Lemma render_levels_ok d ro blockIndex :
  Forall data_level_ok d ->
  levels_ok (render (constructor (Some {| Data.items := Some d |})
                       ro blockIndex)).
Proof.
  intros Hd. unfold levels_ok, all_level_ok, render, items.
  cbn [constructor data Data.items wrapper default].
  apply Forall_fmap. eapply Forall_impl; [exact Hd |].
  intros item Hitem. cbn [compose].
  unfold createChecklistItem, level_ok.
  assert (Hl : forall it : item_el,
             getLevel (el (set_el it (setLevel (el it) (Data.level item))))
             = or_zero (Data.level item))
    by (intros; apply getLevel_setLevel).
  rewrite Hl. unfold data_level_ok in Hitem.
  destruct (Data.level item) as [| [| z]]; [exists 0 | contradiction |].
  - split; [reflexivity | lia].
  - exists z. split; [apply or_zero_Number_Num | exact Hitem].
Qed.

Lemma render_default_levels_ok this :
  Data.items (data this) = None -> levels_ok (render this).
Proof.
  intros Hd. unfold levels_ok, all_level_ok, render, items. rewrite Hd.
  cbn [wrapper fmap list_fmap]. constructor; [| constructor].
  exists 0. split; [apply getLevel_setLevel | lia].
Qed.

(** The invariant holds in every state of the tool, by induction on how
    the state was reached. *)
Lemma reachable_levels_ok this : reachable this -> levels_ok this.
Proof.
  induction 1 as [d ro blockIndex Hd | this a offset _ IH
                 | this i content _ IH | e this this' _ IH Hrun].
  - destruct d as [[[l |]] |].
    + apply render_levels_ok. now apply Hd.
    + now apply render_default_levels_ok.
    + now apply render_default_levels_ok.
  - exact IH.
  - unfold type_text. destruct (items this !! i) as [it |] eqn:Hitem;
      [| exact IH].
    unfold levels_ok, all_level_ok. cbn [items wrapper set_wrapper].
    apply Forall_insert; [exact IH |]. exact (ok_lookup _ _ _ IH Hitem).
  - exact (dispatch_levels_ok e this this' IH Hrun).
Qed.





(* ================================================================== *)
(** ** Checkbox clicks *)
(* ================================================================== *)

Lemma itemData_set_checkbox it c h n :
  itemData (set_checkbox it c h n) =
  {| Data.text := Some (getHTML (getItemInput it));
     Data.checked := Some c;
     Data.level := Number (getLevel (el it)) |}.
Proof. reflexivity. Qed.

(** X1. A click in the checkbox of item [i] flips the flag of that item
    and nothing else of the model: its text and level, every other item,
    the caret and the host are left alone. A click elsewhere in the item
    changes nothing at all. *)
Theorem toggle_flips_only_the_flag
  (this : Checklist) (i : nat) (it : item_el)
  (Hitem : items this !! i = Some it) :
  (exists this',
     toggleCheckbox (in_checkbox i) this = Ok this' /\
     model this' =
       <[i := {| Data.text := Some (getHTML (getItemInput it));
                 Data.checked := Some (negb (itemChecked it));
                 Data.level := Number (getLevel (el it)) |}]> (model this) /\
     (forall j, j <> i -> items this' !! j = items this !! j) /\
     length (items this') = length (items this) /\
     activeElement this' = activeElement this /\
     focusOffset this' = focusOffset this /\
     api_calls this' = api_calls this) /\
  toggleCheckbox (in_item i) this = Ok this.
Proof.
  unfold toggleCheckbox, closest. cbn [click_item checkbox_contains].
  rewrite Hitem. result_simpl. split; [| reflexivity].
  eexists. split; [reflexivity |].
  unfold model, items in *. cbn [wrapper set_wrapper].
  split; [now rewrite list_fmap_insert |].
  split; [intros j Hj; now apply list_lookup_insert_ne |].
  split; [apply length_insert |]. repeat split.
Qed.

(** X2. Two clicks in the checkbox of the same item bring the model back:
    the flag has its first value, and texts and levels never moved. *)
Theorem toggle_twice_restores_model
  (this : Checklist) (i : nat) (it : item_el)
  (Hitem : items this !! i = Some it) :
  exists this1 this2,
    toggleCheckbox (in_checkbox i) this = Ok this1 /\
    toggleCheckbox (in_checkbox i) this1 = Ok this2 /\
    model this2 = model this /\
    (exists it2, items this2 !! i = Some it2 /\
                 itemChecked it2 = itemChecked it).
Proof.
  pose proof (lookup_lt_Some _ _ _ Hitem) as Hlt.
  unfold toggleCheckbox, closest. cbn [click_item checkbox_contains].
  rewrite Hitem. result_simpl.
  eexists _, _. split; [reflexivity |].
  unfold items in *. cbn [wrapper set_wrapper].
  rewrite list_lookup_insert_eq by exact Hlt.
  split; [reflexivity |].
  cbn [wrapper set_wrapper]. rewrite list_insert_insert_eq.
  split.
  - unfold model, items. cbn [wrapper set_wrapper]. rewrite list_fmap_insert.
    apply list_insert_id. rewrite list_lookup_fmap, Hitem.
    cbn [fmap option_fmap option_map]. f_equal.
    rewrite itemData_set_checkbox. cbn [itemChecked set_checkbox].
    rewrite negb_involutive. reflexivity.
  - eexists. split; [now apply list_lookup_insert_eq |].
    cbn [itemChecked set_checkbox]. apply negb_involutive.
Qed.

(** X3. The hover flag lives from the click to the moment the pointer
    leaves the checkbox: the click sets it and leaves one listener more
    waiting; when the pointer leaves, the flag is cleared and no listener
    waits any longer; what [save] would read is the same before and after
    the pointer leaves. *)
Theorem hover_flag_is_transient
  (this : Checklist) (i : nat) (it : item_el)
  (Hitem : items this !! i = Some it) :
  exists this1 it1 it2,
    toggleCheckbox (in_checkbox i) this = Ok this1 /\
    items this1 !! i = Some it1 /\
    noHover it1 = true /\
    mouseleave_once it1 = S (mouseleave_once it) /\
    items (mouseleave i this1) !! i = Some it2 /\
    noHover it2 = false /\
    mouseleave_once it2 = 0%nat /\
    itemChecked it2 = negb (itemChecked it) /\
    save (mouseleave i this1) = save this1.
Proof.
  pose proof (lookup_lt_Some _ _ _ Hitem) as Hlt.
  unfold toggleCheckbox, closest. cbn [click_item checkbox_contains].
  rewrite Hitem. result_simpl.
  eexists _, _, _. split; [reflexivity |].
  unfold mouseleave, items in *. cbn [wrapper set_wrapper].
  rewrite list_lookup_insert_eq by exact Hlt.
  split; [reflexivity |]. split; [reflexivity |]. split; [reflexivity |].
  cbn [mouseleave_once set_checkbox wrapper set_wrapper].
  rewrite list_insert_insert_eq.
  split; [now apply list_lookup_insert_eq |].
  split; [reflexivity |]. split; [reflexivity |]. split; [reflexivity |].
  unfold save, items. cbn [wrapper set_wrapper].
  rewrite !list_fmap_insert. reflexivity.
Qed.

(* ================================================================== *)
(** ** Backspace *)
(* ================================================================== *)

Lemma delete_after_two_inserts {A} (w : list A) i x y p c :
  w !! i = Some p -> w !! S i = Some c ->
  delete (S i) (<[i := x]> (<[S i := y]> w)) =
  take i w ++ x :: drop (S (S i)) w.
Proof.
  revert i. induction w as [| a w IH]; intros [| i] Hp Hc; try discriminate.
  - destruct w as [| c' w']; [discriminate |]. reflexivity.
  - cbn. f_equal. now apply IH.
Qed.

Lemma at_index_pred (w : list item_el) i :
  at_index w (Z.of_nat (S i) - 1) = w !! i.
Proof.
  unfold at_index.
  destruct (Z.ltb_spec (Z.of_nat (S i) - 1) 0) as [H | _]; [lia |].
  f_equal. lia.
Qed.

(** The merging branch of [backspace], as a state. *)
Lemma backspace_merge_eq this i prev cur :
  activeElement this = Some (S i) ->
  items this !! i = Some prev ->
  items this !! S i = Some cur ->
  focusOffset this = 0%nat ->
  backspace this =
  Ok (set_wrapper
        (set_selection this (Some i) (length (getItemInput prev)))
        (take i (items this)
           ++ set_innerHTML prev (getItemInput prev ++ getItemInput cur)
           :: drop (S (S i)) (items this))).
Proof.
  intros Hfocus Hprev Hcur Hcaret. unfold backspace.
  pose proof (closest_active this (S i) cur Hfocus Hcur) as Hc.
  rewrite Hc. cbn [indexOf].
  rewrite at_index_pred, Hprev, Hcaret. cbn [Nat.eqb negb].
  rewrite (extractContentAfterCaret_eq this (S i) cur Hc).
  rewrite Hcaret, splitAtCaret_start. cbn [fst snd].
  result_simpl. unfold moveCaret, items in *.
  cbn [wrapper set_wrapper set_selection].
  replace (Z.to_nat (Z.of_nat (S i) - 1)) with i by lia.
  rewrite Nat2Z.id.
  rewrite (delete_after_two_inserts _ _ _ _ prev cur Hprev Hcur).
  reflexivity.
Qed.

(** X4. Backspace with the caret at the very start of an item that has an
    item before it merges the two: the previous item gets the current
    item's content appended and keeps its own flag and level, the current
    item is removed, every other item stays, the caret goes to where the
    two contents meet, and the host is not called. *)
Theorem backspace_merges_into_previous
  (this : Checklist) (i : nat) (prev cur : item_el)
  (Hfocus : activeElement this = Some (S i))
  (Hprev : items this !! i = Some prev)
  (Hcur : items this !! S i = Some cur)
  (Hcaret : focusOffset this = 0%nat) :
  exists this' merged,
    backspace this = Ok this' /\
    items this' = take i (items this) ++ merged :: drop (S (S i)) (items this) /\
    S (length (items this')) = length (items this) /\
    getItemInput merged = getItemInput prev ++ getItemInput cur /\
    itemChecked merged = itemChecked prev /\
    getLevel (el merged) = getLevel (el prev) /\
    activeElement this' = Some i /\
    focusOffset this' = length (getItemInput prev) /\
    api_calls this' = api_calls this.
Proof.
  pose proof (lookup_lt_Some _ _ _ Hcur) as Hlt.
  eexists _, _. split; [now apply (backspace_merge_eq this i prev cur) |].
  unfold items in *. cbn [wrapper set_wrapper set_selection].
  split; [reflexivity |]. split.
  { rewrite length_app, length_take. cbn [length]. rewrite length_drop. lia. }
  repeat split.
Qed.

Lemma backspace_unchanged this :
  focusOffset this <> 0%nat \/
  activeElement this = Some 0%nat \/
  closest this (activeElement this) = None ->
  backspace this = Ok this.
Proof.
  intros Hcase. unfold backspace.
  destruct (at_index (items this)
              (indexOf (closest this (activeElement this)) - 1))
    as [prevItem |] eqn:Hprev; [| reflexivity].
  destruct Hcase as [Hoff | [Hfirst | Hnone]].
  - apply Nat.eqb_neq in Hoff. now rewrite Hoff.
  - exfalso. rewrite Hfirst in Hprev. unfold closest in Hprev.
    destruct (items this !! 0%nat); discriminate.
  - exfalso. rewrite Hnone in Hprev. discriminate.
Qed.

(** X5. Backspace changes nothing when the current item is the first one
    or when the focus is in no item: there is no item before the current
    one to merge into, the handler returns at once, and nothing is
    thrown. *)
Theorem backspace_leaves_state
  (this : Checklist)
  (Hcase : activeElement this = Some 0%nat \/
           closest this (activeElement this) = None) :
  backspace this = Ok this /\ dispatch (keydown 8 false) this = Ok this.
Proof.
  pose proof (backspace_unchanged this (or_intror Hcase)) as H.
  split; [exact H |].
  unfold dispatch. destruct (readOnly this); [reflexivity | exact H].
Qed.

(* ================================================================== *)
(** ** Enter and Backspace together *)
(* ================================================================== *)

Lemma split_guards this i it l :
  getHTML (getItemInput it) <> [] \/
  (getHTML (getItemInput it) = [] /\ l = 0 /\ S i <> length (items this)) ->
  gt (Num l) (Num 0) && (length (getHTML (getItemInput it)) =? 0)%nat
    = false /\
  (Z.of_nat i =? Z.of_nat (length (items this)) - 1)
    && (length (getHTML (getItemInput it)) =? 0)%nat = false.
Proof.
  intros [Hne | (He & -> & Hnl)].
  - rewrite (eqb_length_cons _ Hne), !andb_false_r. now split.
  - split; [reflexivity |].
    replace (Z.of_nat i =? Z.of_nat (length (items this)) - 1) with false;
      [reflexivity |].
    symmetry. apply Z.eqb_neq. lia.
Qed.

Lemma set_innerHTML_same it : set_innerHTML it (innerHTML it) = it.
Proof. now destruct it. Qed.

Lemma set_innerHTML_twice it h h' :
  set_innerHTML (set_innerHTML it h) h' = set_innerHTML it h'.
Proof. reflexivity. Qed.

(** X6. Split, then merge back: after Enter has split an item at the
    caret, Backspace (the caret now stands at the start of the new item)
    puts the two parts into one item again. The list has the items it had
    before the split, each with its flag and level; the item that was
    split holds the part the splitter left before the caret followed by
    the part it put after it, and the caret stands where the two meet.
    When the two parts make up the old content again, as they do for
    plain text, the list is the very list there was before the split. *)
Theorem split_then_merge_restores
  (this : Checklist) (i : nat) (it : item_el) (l : Z)
  (Hfocus : activeElement this = Some i)
  (Hitem : items this !! i = Some it)
  (Hlevel : getLevel (el it) = Num l)
  (Hcase : getHTML (getItemInput it) <> [] \/
           (getHTML (getItemInput it) = [] /\ l = 0 /\
            S i <> length (items this))) :
  let cut := splitAtCaret (getItemInput it) (focusOffset this) in
  exists this1,
    enterPressed this = Ok this1 /\
    backspace this1 =
    Ok (set_wrapper
          (set_selection this (Some i) (length (fst cut)))
          (<[i := set_innerHTML it (fst cut ++ snd cut)]> (items this))) /\
    (fst cut ++ snd cut = getItemInput it ->
     backspace this1 = Ok (set_selection this (Some i) (length (fst cut)))).
Proof.
  cbn zeta.
  pose proof (lookup_lt_Some _ _ _ Hitem) as Hlt.
  destruct (split_guards this i it l Hcase) as [Hg1 Hg2].
  pose proof (enterPressed_split this i it l Hfocus Hitem Hlevel Hg1 Hg2)
    as Hsplit.
  cbn zeta in Hsplit.
  eexists. split; [exact Hsplit |].
  unfold moveCaret, items, getItemInput in *.
  match goal with
  | |- ?b = Ok ?t /\ _ =>
      assert (Hback : b = Ok t); [| split; [exact Hback |]]
  end.
  - erewrite backspace_merge_eq; cycle 1.
    + reflexivity.
    + unfold items. cbn [wrapper set_wrapper set_selection].
      rewrite lookup_app_r by (rewrite length_take; lia).
      rewrite length_take, Nat.min_l, Nat.sub_diag by lia. reflexivity.
    + unfold items. cbn [wrapper set_wrapper set_selection].
      rewrite lookup_app_r by (rewrite length_take; lia).
      rewrite length_take, Nat.min_l by lia.
      replace (S i - i)%nat with 1%nat by lia. reflexivity.
    + reflexivity.
    + unfold items. cbn [wrapper set_wrapper set_selection].
      rewrite take_app_length' by (rewrite length_take; lia).
      replace (S (S i)) with (length (take i (wrapper this)) + 2)%nat
        by (rewrite length_take; lia).
      rewrite drop_app_add. cbn [drop].
      unfold getItemInput. cbn [innerHTML set_innerHTML].
      rewrite set_innerHTML_twice.
      match goal with
      | |- context [innerHTML (createChecklistItem ?t ?d)] =>
          destruct (createChecklistItem_fields t
                      (snd (splitAtCaret (innerHTML it) (focusOffset this)))
                      l) as (Htext & _ & _)
      end.
      cbn zeta in Htext. unfold getItemInput in Htext. rewrite Htext.
      rewrite drop_0, !insert_take_drop by exact Hlt.
      reflexivity.
  - intros Hwhole. rewrite Hback, Hwhole, set_innerHTML_same.
    rewrite list_insert_id by exact Hitem.
    destruct this. reflexivity.
Qed.

(** A caret inside markup: whatever splitter cuts [<b>bold</b>] after
    [bo] into [<b>bo</b>] and [<b>ld</b>], Enter makes these two the items,
    and Backspace then joins them as they are. *)
Example scenario_split_inside_bold
  (Hbold : splitAtCaret (lit "<b>bold</b>") 5
           = (lit "<b>bo</b>", lit "<b>ld</b>")) :
  exists this1 this2,
    enterPressed (editing [plain "<b>bold</b>" 0] 0 5) = Ok this1 /\
    model this1 = [plain "<b>bo</b>" 0; plain "<b>ld</b>" 0] /\
    backspace this1 = Ok this2 /\
    model this2 = [plain "<b>bo</b><b>ld</b>" 0].
Proof.
  pose proof (enterPressed_split (editing [plain "<b>bold</b>" 0] 0 5) 0
                (rendered (plain "<b>bold</b>" 0)) 0
                eq_refl eq_refl eq_refl eq_refl eq_refl) as Hrun.
  cbn zeta in Hrun.
  change (innerHTML (rendered (plain "<b>bold</b>" 0)))
    with (lit "<b>bold</b>") in Hrun.
  change (focusOffset (editing [plain "<b>bold</b>" 0] 0 5))
    with 5%nat in Hrun.
  rewrite Hbold in Hrun. cbn [fst snd] in Hrun.
  eexists _, _. split; [exact Hrun |]. split; [reflexivity |].
  split; [erewrite backspace_merge_eq; reflexivity | reflexivity].
Qed.

(* ================================================================== *)
(** ** Every outcome of a handler *)
(* ================================================================== *)

Lemma closest_Some_inv this node i it :
  closest this node = Some (i, it) ->
  node = Some i /\ items this !! i = Some it.
Proof.
  unfold closest. destruct node as [j |]; [| discriminate].
  destruct (items this !! j) eqn:E; [| discriminate].
  intros H. injection H as <- <-. now split.
Qed.

(** [backspace] never throws, and it either leaves the state or merges. *)
Lemma backspace_cases this :
  backspace this = Ok this \/
  exists i prev cur,
    activeElement this = Some (S i) /\
    items this !! i = Some prev /\
    items this !! S i = Some cur /\
    focusOffset this = 0%nat /\
    backspace this =
    Ok (set_wrapper
          (set_selection this (Some i) (length (getItemInput prev)))
          (take i (items this)
             ++ set_innerHTML prev (getItemInput prev ++ getItemInput cur)
             :: drop (S (S i)) (items this))).
Proof.
  destruct (Nat.eq_dec (focusOffset this) 0%nat) as [Hoff | Hoff];
    [| left; apply backspace_unchanged; now left].
  destruct (closest this (activeElement this)) as [[j cur] |] eqn:Hc;
    [| left; apply backspace_unchanged; now right; right].
  apply closest_Some_inv in Hc as [Hfocus Hcur].
  destruct j as [| i];
    [left; apply backspace_unchanged; now right; left |].
  assert (Hlt : (i < length (items this))%nat)
    by (apply lookup_lt_Some in Hcur; lia).
  destruct (lookup_lt_is_Some_2 _ _ Hlt) as [prev Hprev].
  right. exists i, prev, cur. repeat split; try assumption.
  now apply backspace_merge_eq.
Qed.


(** The three outcomes of [enterPressed] when the focus is in an item. *)
Lemma enterPressed_cases this i it :
  activeElement this = Some i ->
  items this !! i = Some it ->
  (exists l, getLevel (el it) = Num l /\ 0 < l /\
     getHTML (getItemInput it) = [] /\
     enterPressed this =
     Ok (set_wrapper this
           (<[i := set_el it (setLevel (el it) (Number (Num (l - 1))))]>
              (items this)))) \/
  (getHTML (getItemInput it) = [] /\ S i = length (items this) /\
     enterPressed this =
     Ok (call_api
           (call_api
              (set_selection (set_wrapper this (delete i (items this)))
                 None 0)
              blocks_insert)
           (caret_setToBlock (currentBlockIndex this + 1)))) \/
  (exists newItem,
     getItemInput newItem
       = snd (splitAtCaret (getItemInput it) (focusOffset this)) /\
     itemChecked newItem = false /\
     contentEditable newItem = negb (readOnly this) /\
     el newItem =
       setLevel {| dataset_level := None; paddingLeft := [] |}
         (Number (getLevel (el it))) /\
     enterPressed this =
     Ok (set_selection
           (set_wrapper this
              (take i (items this)
                 ++ set_innerHTML it
                      (fst (splitAtCaret (getItemInput it) (focusOffset this)))
                 :: newItem :: drop (S i) (items this)))
           (Some (S i)) 0)).
Proof.
  intros Hfocus Hitem.
  pose proof (lookup_lt_Some _ _ _ Hitem) as Hlt.
  unfold enterPressed.
  rewrite (closest_active this i it Hfocus Hitem). result_simpl.
  cbn [indexOf].
  destruct (gt (getLevel (el it)) (Num 0)
            && (length (getHTML (getItemInput it)) =? 0)%nat) eqn:Hg1.
  { left. apply andb_true_iff in Hg1 as [Hgt Hlen].
    destruct (getLevel (el it)) as [| l]; [discriminate |].
    exists l. cbn [gt] in Hgt. apply Z.ltb_lt in Hgt.
    apply Nat.eqb_eq in Hlen.
    repeat split; [exact Hgt | now destruct (getHTML (getItemInput it))]. }
  destruct ((Z.of_nat i =? Z.of_nat (length (items this)) - 1)
            && (length (getHTML (getItemInput it)) =? 0)%nat) eqn:Hg2.
  { right. left. apply andb_true_iff in Hg2 as [Hlast Hlen].
    apply Z.eqb_eq in Hlast. apply Nat.eqb_eq in Hlen.
    repeat split; [now destruct (getHTML (getItemInput it)) | lia]. }
  right. right.
  unfold extractContentAfterCaret.
  rewrite (closest_active this i it Hfocus Hitem).
  unfold fragmentToHtml, moveCaret, getItemInput, items in *.
  destruct (splitAtCaret (innerHTML it) (focusOffset this))
    as [before after].
  cbn [wrapper set_wrapper fst snd].
  rewrite drop_insert_lt by lia.
  rewrite take_insert_lt by lia.
  rewrite (take_S_r _ _ _ Hitem).
  rewrite insert_app_r_alt by (rewrite length_take; lia).
  rewrite length_take, Nat.min_l, Nat.sub_diag by lia.
  cbn [insert list_insert]. rewrite <- app_assoc.
  eexists. split; [| split; [| split; [| split; [| reflexivity]]]].
  - unfold createChecklistItem. cbn.
    destruct after; reflexivity.
  - reflexivity.
  - reflexivity.
  - reflexivity.
Qed.

Lemma dispatch_outcome e this this' :
  dispatch e this = Ok this' -> outcome this this'.
Proof.
  unfold dispatch. destruct (readOnly this) eqn:Hro.
  { result_simpl. intros H. injection H as <-. constructor. }
  destruct e as [keyCode shiftKey | target | i].
  - destruct (keyCode =? 13).
    { destruct (closest this (activeElement this)) as [[i it] |] eqn:Hc.
      - apply closest_Some_inv in Hc as [Hfocus Hitem].
        destruct (enterPressed_cases this i it Hfocus Hitem)
          as [(l & Hl & Hpos & Hempty & ->)
             | [(Hempty & Hlast & ->)
               | (newItem & Ht & Hc & He & Hel & ->)]];
          intros H; injection H as <-.
        + eapply out_item; [exact Hitem | reflexivity | reflexivity |].
          cbn [el set_el].
          replace (Num (l - 1)) with (sub (getLevel (el it)) (Num 1))
            by now rewrite Hl.
          apply level_dedent. rewrite Hl. cbn [gt]. now apply Z.ltb_lt.
        + now apply (out_exit this i it).
        + now apply (out_split this i it newItem).
      - unfold enterPressed. rewrite Hc. discriminate. }
    destruct (keyCode =? 9).
    { assert (Hupd : forall d,
                updateLevel (Num d) this = Ok this' -> outcome this this').
      { intros d. unfold updateLevel.
        destruct (closest this (activeElement this)) as [[i it] |] eqn:Hc;
          result_simpl; intros H; injection H as <-.
        - apply closest_Some_inv in Hc as [_ Hitem].
          eapply out_item; [exact Hitem | reflexivity | reflexivity |].
          cbn [el set_el]. apply level_moved.
        - apply out_holder. }
      destruct shiftKey; apply Hupd. }
    destruct (keyCode =? 8).
    { destruct (backspace_cases this)
        as [-> | (i & prev & cur & _ & Hprev & Hcur & _ & ->)];
        intros H; injection H as <-.
      - constructor.
      - now apply (out_merge this i prev cur). }
    result_simpl. intros H. injection H as <-. constructor.
  - unfold toggleCheckbox.
    destruct (closest this (click_item target)) as [[i it] |] eqn:Hc;
      [| discriminate].
    apply closest_Some_inv in Hc as [_ Hitem]. result_simpl.
    destruct (checkbox_contains target); intros H; injection H as <-.
    + eapply out_item; [exact Hitem | reflexivity | reflexivity |].
      apply level_kept.
    + constructor.
  - result_simpl. intros H. injection H as <-. unfold mouseleave.
    destruct (items this !! i) as [it |] eqn:Hitem; [| constructor].
    destruct (mouseleave_once it); [constructor |].
    eapply out_item; [exact Hitem | reflexivity | reflexivity |].
    apply level_kept.
Qed.

(* ================================================================== *)
(** ** What no handler does *)
(* ================================================================== *)


(** X8. Handling an event changes the number of items by one at most,
    never touches the data the tool was built from, its read-only flag or
    its block index, and calls the host in one case only: when an item is
    removed on leaving the block, the two calls are an insert and a move of
    the caret to the next block, and the focus is then in no item. *)
Theorem handlers_effect_is_bounded
  (e : event) (this this' : Checklist)
  (Hrun : dispatch e this = Ok this') :
  readOnly this' = readOnly this /\
  data this' = data this /\
  currentBlockIndex this' = currentBlockIndex this /\
  ((api_calls this' = api_calls this /\
    (length (items this') = length (items this) \/
     length (items this') = S (length (items this)) \/
     S (length (items this')) = length (items this))) \/
   (api_calls this' =
      api_calls this ++
      [blocks_insert; caret_setToBlock (currentBlockIndex this + 1)] /\
    S (length (items this')) = length (items this) /\
    activeElement this' = None)).
Proof.
  apply dispatch_outcome in Hrun.
  destruct Hrun as [| i it it' Hitem _ _ _ | e'
                   | i it Hitem Hempty Hlast
                   | i it newItem Hitem _ _ _ _
                   | i prev cur Hprev Hcur];
    unfold items in *;
    cbn [wrapper set_wrapper set_holder set_selection call_api
         readOnly data currentBlockIndex api_calls activeElement];
    (split; [reflexivity |]); (split; [reflexivity |]);
    (split; [reflexivity |]).
  - left. split; [reflexivity | now left].
  - left. split; [reflexivity | left; apply length_insert].
  - left. split; [reflexivity | now left].
  - right. split; [now rewrite <- app_assoc |]. split; [| reflexivity].
    rewrite length_delete by eauto. lia.
  - left. split; [reflexivity |]. right. left.
    pose proof (lookup_lt_Some _ _ _ Hitem) as Hlt.
    rewrite length_app, length_take. cbn [length]. rewrite length_drop. lia.
  - left. split; [reflexivity |]. right. right.
    pose proof (lookup_lt_Some _ _ _ Hcur) as Hlt.
    rewrite length_app, length_take. cbn [length]. rewrite length_drop. lia.
Qed.


(* ================================================================== *)
(** ** When a handler throws *)
(* ================================================================== *)

Lemma enterPressed_throws_iff this :
  enterPressed this = Throw TypeError <->
  closest this (activeElement this) = None.
Proof.
  split.
  - destruct (closest this (activeElement this)) as [[i it] |] eqn:Hc;
      [| reflexivity].
    apply closest_Some_inv in Hc as [Hfocus Hitem].
    destruct (enterPressed_cases this i it Hfocus Hitem)
      as [(l & _ & _ & _ & ->) | [(_ & _ & ->) | (newItem & _ & _ & _ & _ & ->)]];
      discriminate.
  - intros Hc. unfold enterPressed. now rewrite Hc.
Qed.

Lemma toggleCheckbox_throws_iff target this :
  toggleCheckbox target this = Throw TypeError <->
  closest this (click_item target) = None.
Proof.
  unfold toggleCheckbox.
  destruct (closest this (click_item target)) as [[i it] |]; result_simpl.
  - destruct (checkbox_contains target); split; discriminate.
  - split; reflexivity.
Qed.

Lemma backspace_Ok this : exists this', backspace this = Ok this'.
Proof.
  destruct (backspace_cases this) as [-> | (i & prev & cur & _ & _ & _ & _ & ->)];
    eauto.
Qed.

(** X9. When Enter, Backspace and a click fail. A key other than Tab
    makes the tool throw exactly when the tool is not read-only, the key
    is Enter and the focus is in no item; a click does exactly when the
    tool is not read-only and the click lands in no item. So Backspace,
    the keys the tool does not handle and the pointer leaving a checkbox
    never throw, and in read-only mode none of these does. Tab and
    Shift-Tab are left out: they read the parent element of the event
    target, which the state here always has. *)
Theorem dispatch_throws_exactly_when (this : Checklist) :
  (forall keyCode shiftKey, keyCode <> 9 ->
     (dispatch (keydown keyCode shiftKey) this = Throw TypeError <->
      readOnly this = false /\ keyCode = 13 /\
      closest this (activeElement this) = None)) /\
  (forall target,
     dispatch (click target) this = Throw TypeError <->
     readOnly this = false /\ closest this (click_item target) = None) /\
  (forall i, exists this', dispatch (checkbox_mouseleave i) this = Ok this') /\
  (forall shiftKey, exists this',
     dispatch (keydown 8 shiftKey) this = Ok this').
Proof.
  unfold dispatch. split; [| split; [| split]].
  - intros keyCode shiftKey H9. destruct (readOnly this).
    { split; [discriminate | intros [H _]; discriminate]. }
    destruct (Z.eqb_spec keyCode 13) as [-> | Hk].
    + rewrite enterPressed_throws_iff. split; [now intros Hc |].
      now intros (_ & _ & Hc).
    + destruct (Z.eqb_spec keyCode 9) as [E | _]; [contradiction |].
      destruct (keyCode =? 8).
      * destruct (backspace_Ok this) as [t ->].
        split; [discriminate | intros (_ & E & _); contradiction].
      * split; [discriminate | intros (_ & E & _); contradiction].
  - intros target. destruct (readOnly this).
    { split; [discriminate | intros [H _]; discriminate]. }
    rewrite toggleCheckbox_throws_iff. split; [now intros Hc |].
    now intros (_ & Hc).
  - intros i. destruct (readOnly this); eauto.
  - intros shiftKey. destruct (readOnly this); [eauto |].
    change (8 =? 13) with false. change (8 =? 9) with false.
    change (8 =? 8) with true. cbv iota. apply backspace_Ok.
Qed.

(* ================================================================== *)
(** ** Indentation *)
(* ================================================================== *)






(** X12. Tab and Shift-Tab leave the item at a non-negative integer
    level, whatever its attribute held before, provided that what it held
    does not read as an integer of magnitude 2^53 or more: an integer
    level moves by one with the floor at 0, and a level that does not
    read as a number becomes 0. The level computed on doubles is the same
    one. *)
Theorem tab_always_gives_a_level
  (this : Checklist) (i : nat) (it : item_el) (shiftKey : bool)
  (Hfocus : activeElement this = Some i)
  (Hitem : items this !! i = Some it)
  (Hrange : forall l, getLevel (el it) = Num l -> Z.abs l < 2 ^ 53) :
  exists this' it',
    (if shiftKey then shiftTab this else tab this) = Ok this' /\
    items this' = <[i := it']> (items this) /\
    items this' !! i = Some it' /\
    level_ok (el it') /\
    (forall l, getLevel (el it) = Num l ->
               getLevel (el it')
               = Num (Z.max 0 (l + (if shiftKey then -1 else 1)))) /\
    (getLevel (el it) = NaN -> getLevel (el it') = Num 0) /\
    Double.getLevel
      (Double.updateLevel (Double.Fin (if shiftKey then -1 else 1)) (el it))
    = Double.of_exact (getLevel (el it')) /\
    getItemInput it' = getItemInput it /\
    itemChecked it' = itemChecked it.
Proof.
  pose proof (lookup_lt_Some _ _ _ Hitem) as Hlt.
  assert (Hgen : forall d, -1 <= d <= 1 ->
    exists this' it',
      updateLevel (Num d) this = Ok this' /\
      items this' = <[i := it']> (items this) /\
      items this' !! i = Some it' /\
      level_ok (el it') /\
      (forall l, getLevel (el it) = Num l ->
                 getLevel (el it') = Num (Z.max 0 (l + d))) /\
      (getLevel (el it) = NaN -> getLevel (el it') = Num 0) /\
      Double.getLevel (Double.updateLevel (Double.Fin d) (el it))
      = Double.of_exact (getLevel (el it')) /\
      getItemInput it' = getItemInput it /\
      itemChecked it' = itemChecked it).
  { intros d Hd. unfold updateLevel.
    rewrite (closest_active this i it Hfocus Hitem). result_simpl.
    eexists _, _. split; [reflexivity |].
    unfold items in *. cbn [wrapper set_wrapper].
    split; [reflexivity |].
    split; [now apply list_lookup_insert_eq |].
    cbn [el set_el].
    assert (Hdouble :
      Double.getLevel (Double.updateLevel (Double.Fin d) (el it))
      = Double.of_exact
          (getLevel (setLevel (el it)
             (Number (max (Num 0) (add (getLevel (el it)) (Num d))))))).
    { apply Double_updateLevel_exact. intros l Hl.
      specialize (Hrange l Hl). lia. }
    destruct (getLevel (el it)) as [| l]; cbn [add max] in *.
    - split; [exists 0; split; [apply getLevel_setLevel | lia] |].
      split; [intros; congruence |].
      split; [intros _; apply getLevel_setLevel |].
      split; [exact Hdouble |].
      now split.
    - split; [apply level_ok_setLevel; lia |].
      split; [intros l' Hl'; injection Hl' as <-;
              apply getLevel_setLevel_Num |].
      split; [intros; congruence |].
      split; [exact Hdouble |].
      now split. }
  destruct shiftKey; [apply (Hgen (-1)) | apply (Hgen 1)]; lia.
Qed.


(* ================================================================== *)
(** ** Read-only mode *)
(* ================================================================== *)




(* ================================================================== *)
(** ** Saving and loading again *)
(* ================================================================== *)

Lemma filter_all {A} (P : A -> Prop) `{!forall x, Decision (P x)} (l : list A) :
  Forall P l -> filter P l = l.
Proof.
  induction 1 as [| x l Hx _ IH]; [reflexivity |].
  rewrite filter_cons_True by exact Hx. now rewrite IH.
Qed.

Lemma materialized_itemData it z :
  getLevel (el it) = Num z -> materialized (itemData it) = itemData it.
Proof.
  intros Hz. unfold materialized, itemData, text_or_empty.
  cbn [Data.text Data.checked Data.level default]. rewrite Hz.
  rewrite or_zero_Number_Num. f_equal. f_equal.
  now destruct (itemChecked it).
Qed.

Lemma save_eq this :
  save this =
  {| Data.items :=
       Some (filter (fun item => length (trim (text_or_empty item)) <> 0%nat)
               (model this)) |}.
Proof. reflexivity. Qed.

(** X15. Saving, loading and saving again: when the levels are
    non-negative integers, a tool rendered from what [save] returned has
    exactly the saved items as its model, each with the saved text, flag
    and level and in the saved order, and saving it returns the same data. *)
Theorem save_load_save
  (this : Checklist) (ro : bool) (blockIndex : Z)
  (Hok : levels_ok this) :
  Data.items (save this) =
    Some (model (render (constructor (Some (save this)) ro blockIndex))) /\
  save (render (constructor (Some (save this)) ro blockIndex)) = save this.
Proof.
  rewrite !save_eq.
  set (P := fun item : ChecklistItem =>
              length (trim (text_or_empty item)) <> 0%nat).
  set (saved := filter P (model this)).
  assert (Hmodel :
    model (render (constructor (Some {| Data.items := Some saved |})
                     ro blockIndex)) = saved).
  { rewrite (model_render_items _ saved) by reflexivity.
    rewrite <- (list_fmap_id saved) at 2.
    apply list_fmap_ext. intros k item Hk.
    assert (Hin : item ∈ model this).
    { apply list_elem_of_lookup_2 in Hk.
      now apply list_elem_of_filter in Hk as [_ Hin]. }
    apply list_elem_of_fmap in Hin as (it & -> & Hit).
    apply list_elem_of_lookup in Hit as [j Hj].
    destruct (Forall_lookup_1 _ _ _ _ Hok Hj) as (z & Hz & _).
    now apply (materialized_itemData it z). }
  rewrite Hmodel. split; [reflexivity |].
  f_equal. f_equal. apply filter_all.
  apply Forall_forall. intros item Hin.
  now apply list_elem_of_filter in Hin as [HP _].
Qed.

Lemma saved_nil_iff (w : list item_el) :
  filter (fun item => length (trim (text_or_empty item)) <> 0%nat)
    (itemData <$> w) = [] <->
  Forall blank w.
Proof.
  induction w as [| it w IH]; [split; constructor |].
  rewrite fmap_cons, filter_cons.
  change (text_or_empty (itemData it)) with (getHTML (getItemInput it)).
  destruct (decide (length (trim (getHTML (getItemInput it))) <> 0%nat))
    as [Hne | He].
  - split; [discriminate |]. intros Hall. exfalso. apply Hne.
    apply Forall_inv in Hall. unfold blank in Hall. now rewrite Hall.
  - rewrite IH. split.
    + intros Hall. constructor; [| exact Hall]. unfold blank.
      destruct (trim (getHTML (getItemInput it))); [reflexivity |].
      exfalso. apply He. discriminate.
    + apply Forall_inv_tail.
Qed.

(** X16. What is saved validates exactly when some item has text:
    [validate] applied to the result of [save] never throws, answers
    false when every field is blank and true otherwise; a checklist just
    rendered without data is therefore saved as invalid. *)
Theorem validate_after_save (this : Checklist) :
  (validate (save this) = Ok false <-> Forall blank (items this)) /\
  (validate (save this) = Ok true <-> ~ Forall blank (items this)) /\
  (forall ro blockIndex,
     validate (save (render (constructor None ro blockIndex))) = Ok false).
Proof.
  assert (Hval : forall t : Checklist,
    validate (save t) =
    Ok (negb (Nat.eqb
                (length (filter (fun item =>
                                   length (trim (text_or_empty item))
                                   <> 0%nat) (model t))) 0))).
  { intros t. rewrite save_eq. unfold validate. result_simpl.
    cbn [Data.items]. f_equal. f_equal.
    destruct (length _) as [| k]; [reflexivity |].
    rewrite Nat2Z.inj_succ.
    destruct (Z.eqb_spec (Z.succ (Z.of_nat k)) 0); [lia | reflexivity]. }
  pose proof (saved_nil_iff (items this)) as Hnil. fold (model this) in Hnil.
  split; [| split].
  - rewrite Hval, <- Hnil.
    destruct (filter _ (model this)); cbn; split; congruence.
  - rewrite Hval, <- Hnil.
    destruct (filter _ (model this)); cbn; split; congruence.
  - intros ro blockIndex. reflexivity.
Qed.

(** X17. Conversion from and to plain text: the data made from a string
    holds one item, with that string as its text, unchecked and at level
    0; it exports back to the very string, and it validates, also when
    the string is empty or blank. *)
Theorem import_roundtrips (s : jsstring) :
  Data.items (importFromPlainText s)
  = Some [ {| Data.text := Some s; Data.checked := Some false;
              Data.level := Number (Num 0) |} ] /\
  exportToPlainText (importFromPlainText s) = Ok s /\
  validate (importFromPlainText s) = Ok true /\
  validate (importFromPlainText []) = Ok true.
Proof. repeat split. Qed.

(** X18. What [getLevel] reads after [setLevel], on doubles: the level
    itself for every integer double of magnitude below 10^21, a negative
    one too; 0 for [NaN], for 0 and for a missing level. From 10^21 on it
    is not the level: 10^21 is stored as [1e+21] and read as 1, and an
    infinity is stored as [Infinity] and read as [NaN]. Only the last
    [setLevel] counts. *)
Theorem level_store_any_value (item : element) :
  (forall z, Z.abs z < 10 ^ 21 -> Double.round z = Double.Fin z ->
     Double.getLevel (Double.setLevel item (Double.Number (Double.Fin z)))
     = Double.Fin z) /\
  (forall z, Z.abs z <= 2 ^ 53 ->
     Double.getLevel (Double.setLevel item (Double.Number (Double.Fin z)))
     = Double.Fin z /\
     getLevel (setLevel item (Number (Num z))) = Num z) /\
  Double.getLevel (Double.setLevel item Double.Undefined) = Double.Fin 0 /\
  Double.getLevel (Double.setLevel item (Double.Number Double.NaN))
  = Double.Fin 0 /\
  Double.getLevel
    (Double.setLevel item (Double.Number (Double.Fin (10 ^ 21))))
  = Double.Fin 1 /\
  (forall negative,
     Double.getLevel
       (Double.setLevel item (Double.Number (Double.Infinity negative)))
     = Double.NaN) /\
  (forall level level',
     Double.setLevel (Double.setLevel item level') level
     = Double.setLevel item level).
Proof.
  split; [intros z Hz Hr; now apply Double_getLevel_setLevel |].
  split.
  { intros z Hz. split; [| apply getLevel_setLevel_Num].
    apply Double_getLevel_setLevel; [lia | now apply round_safe]. }
  split; [reflexivity |]. split; [reflexivity |].
  split; [vm_compute; reflexivity |].
  split; [intros []; vm_compute; reflexivity | reflexivity].
Qed.

(** X19. [render] builds the elements from the data alone: when the data
    had no items it writes the default item into the data, and rendering a
    second time gives the very same state. *)
Theorem render_is_idempotent (this : Checklist) :
  render (render this) = render this /\
  (Data.items (data this) = None ->
   Data.items (data (render this)) = Some [emptyItem]) /\
  (forall l, Data.items (data this) = Some l ->
             data (render this) = data this /\
             length (items (render this)) = length l).
Proof.
  split; [| split].
  - unfold render. cbn [data Data.items readOnly wrapper holder activeElement
                        focusOffset currentBlockIndex api_calls].
    f_equal.
  - intros Hd. unfold render. now rewrite Hd.
  - intros l Hl. unfold render, items. rewrite Hl. cbn [data wrapper].
    split; [destruct (data this); cbn in *; congruence |].
    apply length_fmap.
Qed.

(* ================================================================== *)
(** ** Enter at the ends of a field *)
(* ================================================================== *)

(** X20. Enter with the caret at the end of a non-empty field
    leaves the item whole and adds an empty item after it, at the same
    level; Enter with the caret at the very start empties the item and
    moves its whole text into the new item after it. *)
Theorem enter_at_field_ends
  (this : Checklist) (i : nat) (it : item_el) (l : Z)
  (Hfocus : activeElement this = Some i)
  (Hitem : items this !! i = Some it)
  (Hlevel : getLevel (el it) = Num l)
  (Hne : getHTML (getItemInput it) <> []) :
  exists this' newItem,
    enterPressed this = Ok this' /\
    getLevel (el newItem) = Num l /\
    (focusOffset this = length (getItemInput it) ->
     items this' = take i (items this) ++ it :: newItem
                     :: drop (S i) (items this) /\
     getItemInput newItem = []) /\
    (focusOffset this = 0%nat ->
     items this' = take i (items this) ++ set_innerHTML it [] :: newItem
                     :: drop (S i) (items this) /\
     getItemInput newItem = getItemInput it).
Proof.
  destruct (split_guards this i it l (or_introl Hne)) as [Hg1 Hg2].
  pose proof (enterPressed_split this i it l Hfocus Hitem Hlevel Hg1 Hg2)
    as Hsplit.
  cbn zeta in Hsplit.
  eexists _, _. split; [exact Hsplit |].
  match goal with
  | |- context [createChecklistItem ?t ?d] =>
      destruct (createChecklistItem_fields t
                  (snd (splitAtCaret (innerHTML it) (focusOffset this))) l)
        as (Htext & _ & Hlev)
  end.
  cbn zeta in Htext, Hlev.
  unfold moveCaret, items, getItemInput in *.
  cbn [wrapper set_wrapper set_selection].
  split; [exact Hlev |]. split.
  - intros Hoff. rewrite Htext, Hoff, splitAtCaret_end. cbn [fst snd].
    rewrite set_innerHTML_same. now split.
  - intros Hoff. rewrite Htext, Hoff, splitAtCaret_start. now split.
Qed.

(* ================================================================== *)
(** ** Tab against Shift-Tab *)
(* ================================================================== *)

Lemma model_after_two_levels this i it e1 e2 :
  items this !! i = Some it ->
  getLevel e2 = getLevel (el it) ->
  model (set_wrapper
           (set_wrapper this (<[i := set_el it e1]> (items this)))
           (<[i := set_el (set_el it e1) e2]>
              (items (set_wrapper this (<[i := set_el it e1]> (items this))))))
  = model this.
Proof.
  intros Hitem Hl. unfold model, items in *. cbn [wrapper set_wrapper].
  rewrite list_insert_insert_eq, list_fmap_insert.
  apply list_insert_id. rewrite list_lookup_fmap, Hitem.
  cbn [fmap option_fmap option_map]. f_equal.
  unfold itemData. cbn [el set_el itemChecked]. rewrite Hl. reflexivity.
Qed.

(** X21. Shift-Tab undoes Tab: on an item at a non-negative integer level
    below 2^53, Tab followed by Shift-Tab gives back the model there was.
    The other way round it holds above level 0 only: at level 0 Shift-Tab
    stays at 0 and the Tab after it ends at level 1. (At 2^53 Tab leaves
    the level, a double, where it is, and Shift-Tab then lowers it.) *)
Theorem shiftTab_undoes_tab
  (this : Checklist) (i : nat) (it : item_el) (l : Z)
  (Hfocus : activeElement this = Some i)
  (Hitem : items this !! i = Some it)
  (Hlevel : getLevel (el it) = Num l)
  (Hpos : 0 <= l < 2 ^ 53) :
  (exists this1 this2,
     tab this = Ok this1 /\ shiftTab this1 = Ok this2 /\
     model this2 = model this) /\
  (exists this1 this2 it2,
     shiftTab this = Ok this1 /\ tab this1 = Ok this2 /\
     items this2 !! i = Some it2 /\
     getLevel (el it2) = Num (Z.max 1 l) /\
     (0 < l -> model this2 = model this)).
Proof.
  pose proof (lookup_lt_Some _ _ _ Hitem) as Hlt.
  assert (Hstep : forall d,
    let e1 := setLevel (el it) (Number (Num (Z.max 0 (l + d)))) in
    let this1 := set_wrapper this (<[i := set_el it e1]> (items this)) in
    updateLevel (Num d) this = Ok this1 /\
    activeElement this1 = Some i /\
    items this1 !! i = Some (set_el it e1) /\
    getLevel (el (set_el it e1)) = Num (Z.max 0 (l + d))).
  { intros d. cbn zeta.
    split; [now apply updateLevel_item |]. split; [exact Hfocus |].
    split; [unfold items; cbn [wrapper set_wrapper];
            now apply list_lookup_insert_eq |].
    cbn [el set_el]. apply getLevel_setLevel_Num. }
  split.
  - destruct (Hstep 1) as (Hrun1 & Hf1 & Hi1 & Hl1). cbn zeta in *.
    eexists _, _. split; [exact Hrun1 |].
    split; [unfold shiftTab;
            exact (updateLevel_item _ i _ _ (-1) Hf1 Hi1 Hl1) |].
    apply model_after_two_levels; [exact Hitem |].
    rewrite getLevel_setLevel_Num, Hlevel. f_equal. lia.
  - destruct (Hstep (-1)) as (Hrun1 & Hf1 & Hi1 & Hl1). cbn zeta in *.
    eexists _, _, _. split; [exact Hrun1 |].
    split; [unfold tab; exact (updateLevel_item _ i _ _ 1 Hf1 Hi1 Hl1) |].
    split.
    { unfold items. cbn [wrapper set_wrapper].
      apply list_lookup_insert_eq. now rewrite length_insert. }
    split.
    { cbn [el set_el]. rewrite getLevel_setLevel_Num. f_equal. lia. }
    intros Hl0. apply model_after_two_levels; [exact Hitem |].
    rewrite getLevel_setLevel_Num, Hlevel. f_equal. lia.
Qed.

End Tool.

(* ================================================================== *)
(** ** Fields of plain text *)
(* ================================================================== *)

(** From here on a field holds plain text, and its cut is the plain
    one. *)
#[global] Existing Instance plain_splitter.

(* ================================================================== *)
(** ** The scenarios of the specification, run *)
(* ================================================================== *)

(** Basic split: "buy milk" with the caret after "buy". *)
Example scenario_basic_split :
  exists this',
    enterPressed buy_milk = Ok this' /\
    model this' = [plain "buy" 0; plain " milk" 0] /\
    activeElement this' = Some 1%nat /\ focusOffset this' = 0%nat.
Proof. eexists. split; [reflexivity |]. repeat split. Qed.

(** Enter in an empty last item leaves the block. *)
Example scenario_exit_block :
  exists this',
    enterPressed empty_last = Ok this' /\
    model this' = [plain "a" 0] /\
    api_calls this' = [blocks_insert; caret_setToBlock 8].
Proof. eexists. split; [reflexivity |]. repeat split. Qed.

(** Enter in an empty item at level 2 brings it to level 1. *)
Example scenario_dedent :
  exists this',
    enterPressed nested_empty = Ok this' /\
    model this' = [plain "a" 0; plain "" 1].
Proof. eexists. split; [reflexivity |]. repeat split. Qed.

(** Backspace at the start of the second item merges it into the first. *)
Example scenario_merge :
  exists this',
    backspace (editing [plain "buy" 0; plain " milk" 0] 1 0) = Ok this' /\
    model this' = [plain "buy milk" 0] /\
    activeElement this' = Some 0%nat /\ focusOffset this' = 3%nat.
Proof. eexists. split; [reflexivity |]. repeat split. Qed.

(** Two clicks on a checkbox bring the flag back. *)
Example scenario_toggle_twice :
  exists this1 this2,
    toggleCheckbox (in_checkbox 0) buy_milk = Ok this1 /\
    toggleCheckbox (in_checkbox 0) this1 = Ok this2 /\
    model this1 = [ {| Data.text := Some (lit "buy milk");
                       Data.checked := Some true;
                       Data.level := Number (Num 0) |} ] /\
    model this2 = model buy_milk.
Proof. eexists _, _. repeat split. Qed.

(** Plain text import. *)
Example scenario_import :
  importFromPlainText (lit "hello") =
  {| Data.items := Some [plain "hello" 0] |}.
Proof. reflexivity. Qed.

(** Saving drops the blank item. *)
Example scenario_save :
  save (editing [plain "a" 0; plain "  " 1; plain "b" 2] 0 0) =
  {| Data.items := Some [plain "a" 0; plain "b" 2] |}.
Proof. reflexivity. Qed.

(* ================================================================== *)
(** ** The theorems at concrete inputs *)
(* ================================================================== *)

(** The split of "buy milk" after "buy". *)
Lemma enter_splits_item_witness :
  activeElement buy_milk = Some 0%nat /\
  items buy_milk !! 0%nat = Some (rendered (plain "buy milk" 0)) /\
  getLevel (el (rendered (plain "buy milk" 0))) = Num 0 /\
  getHTML (getItemInput (rendered (plain "buy milk" 0))) <> [] /\
  splitAtCaret (getItemInput (rendered (plain "buy milk" 0)))
    (focusOffset buy_milk) = (lit "buy", lit " milk") /\
  exists this' newItem,
    enterPressed buy_milk = Ok this' /\
    items this' =
      [set_innerHTML (rendered (plain "buy milk" 0)) (lit "buy"); newItem] /\
    getItemInput newItem = lit " milk" /\
    itemChecked newItem = false /\
    getLevel (el newItem) = Num 0 /\
    api_calls this' = [].
Proof.
  assert (Hne : getHTML (getItemInput (rendered (plain "buy milk" 0))) <> [])
    by discriminate.
  split; [reflexivity |]. split; [reflexivity |].
  split; [reflexivity |]. split; [exact Hne |].
  split; [reflexivity |].
  destruct (enter_splits_item buy_milk 0 (rendered (plain "buy milk" 0)) 0
              eq_refl eq_refl eq_refl (or_introl Hne))
    as (this' & newItem & Hrun & Hitems & _ & _ & _ & Htext & Hchecked
        & Hlevel & _ & _ & Hcalls).
  exists this', newItem. repeat split; assumption.
Defined.


(** Enter in the empty last item at level 0. *)
Lemma enter_on_empty_last_item_witness :
  activeElement empty_last = Some 1%nat /\
  items empty_last !! 1%nat = Some (rendered (plain "" 0)) /\
  2%nat = length (items empty_last) /\
  getLevel (el (rendered (plain "" 0))) = Num 0 /\
  getHTML (getItemInput (rendered (plain "" 0))) = [] /\
  exists this',
    enterPressed empty_last = Ok this' /\
    items this' = take 1 (items empty_last) /\
    items empty_last = items this' ++ [rendered (plain "" 0)] /\
    api_calls this' =
      api_calls empty_last ++
      [blocks_insert; caret_setToBlock (currentBlockIndex empty_last + 1)].
Proof.
  split; [reflexivity |]. split; [reflexivity |]. split; [reflexivity |].
  split; [reflexivity |]. split; [reflexivity |].
  apply (enter_on_empty_last_item empty_last 1 (rendered (plain "" 0)));
    reflexivity.
Defined.

(** The "buy milk" state is one the tool reaches: rendered, then the
    caret placed. *)
Lemma reachable_buy_milk : reachable buy_milk.
Proof.
  apply reach_caret. apply reach_render.
  intros l Hl. injection Hl as <-.
  constructor; [exact (Z.le_refl 0) | constructor].
Defined.




(** Enter on "buy milk": one item more, the host not called. *)
Lemma handlers_effect_is_bounded_witness :
  dispatch (keydown 13 false) buy_milk = Ok buy_milk_split /\
  readOnly buy_milk_split = readOnly buy_milk /\
  data buy_milk_split = data buy_milk /\
  currentBlockIndex buy_milk_split = currentBlockIndex buy_milk /\
  ((api_calls buy_milk_split = api_calls buy_milk /\
    (length (items buy_milk_split) = length (items buy_milk) \/
     length (items buy_milk_split) = S (length (items buy_milk)) \/
     S (length (items buy_milk_split)) = length (items buy_milk))) \/
   (api_calls buy_milk_split =
      api_calls buy_milk ++
      [blocks_insert; caret_setToBlock (currentBlockIndex buy_milk + 1)] /\
    S (length (items buy_milk_split)) = length (items buy_milk) /\
    activeElement buy_milk_split = None)).
Proof.
  split; [reflexivity |].
  apply (handlers_effect_is_bounded (keydown 13 false) buy_milk
           buy_milk_split).
  reflexivity.
Defined.

(* ================================================================== *)
(** ** The further theorems at concrete inputs *)
(* ================================================================== *)

(** A click in the checkbox of "buy milk". *)
Lemma toggle_flips_only_the_flag_witness :
  items buy_milk !! 0%nat = Some (rendered (plain "buy milk" 0)) /\
  exists this',
    toggleCheckbox (in_checkbox 0) buy_milk = Ok this' /\
    model this' = [ {| Data.text := Some (lit "buy milk");
                       Data.checked := Some true;
                       Data.level := Number (Num 0) |} ].
Proof.
  split; [reflexivity |].
  destruct (toggle_flips_only_the_flag buy_milk 0
              (rendered (plain "buy milk" 0)) eq_refl)
    as [(this' & Hrun & Hmodel & _) _].
  exists this'. split; [exact Hrun | exact Hmodel].
Defined.

(** Two clicks in the checkbox of "buy milk". *)
Lemma toggle_twice_restores_model_witness :
  items buy_milk !! 0%nat = Some (rendered (plain "buy milk" 0)) /\
  exists this1 this2,
    toggleCheckbox (in_checkbox 0) buy_milk = Ok this1 /\
    toggleCheckbox (in_checkbox 0) this1 = Ok this2 /\
    model this2 = model buy_milk.
Proof.
  split; [reflexivity |].
  destruct (toggle_twice_restores_model buy_milk 0
              (rendered (plain "buy milk" 0)) eq_refl)
    as (this1 & this2 & H1 & H2 & Hmodel & _).
  exists this1, this2. repeat split; assumption.
Defined.

(** A click in the checkbox of "buy milk", then the pointer leaves. *)
Lemma hover_flag_is_transient_witness :
  items buy_milk !! 0%nat = Some (rendered (plain "buy milk" 0)) /\
  exists this1 it2,
    toggleCheckbox (in_checkbox 0) buy_milk = Ok this1 /\
    items (mouseleave 0 this1) !! 0%nat = Some it2 /\
    noHover it2 = false /\
    itemChecked it2 = true.
Proof.
  split; [reflexivity |].
  destruct (hover_flag_is_transient buy_milk 0
              (rendered (plain "buy milk" 0)) eq_refl)
    as (this1 & it1 & it2 & H1 & _ & _ & _ & H2 & Hh & _ & Hc & _).
  exists this1, it2. repeat split; assumption.
Defined.

(** Backspace at the start of " milk", after "buy". *)
Lemma backspace_merges_into_previous_witness :
  activeElement buy_and_milk = Some 1%nat /\
  items buy_and_milk !! 0%nat = Some (rendered (plain "buy" 0)) /\
  items buy_and_milk !! 1%nat = Some (rendered (plain " milk" 0)) /\
  focusOffset buy_and_milk = 0%nat /\
  exists this' merged,
    backspace buy_and_milk = Ok this' /\
    items this' = [merged] /\
    getItemInput merged = lit "buy" ++ lit " milk" /\
    focusOffset this' = 3%nat.
Proof.
  split; [reflexivity |]. split; [reflexivity |].
  split; [reflexivity |]. split; [reflexivity |].
  destruct (backspace_merges_into_previous buy_and_milk 0
              (rendered (plain "buy" 0)) (rendered (plain " milk" 0))
              eq_refl eq_refl eq_refl eq_refl)
    as (this' & merged & Hrun & Hitems & _ & Htext & _ & _ & _ & Hoff & _).
  exists this', merged. repeat split; assumption.
Defined.

(** Backspace in "buy milk", the only item. *)
Lemma backspace_leaves_state_witness :
  activeElement buy_milk = Some 0%nat /\
  backspace buy_milk = Ok buy_milk /\
  dispatch (keydown 8 false) buy_milk = Ok buy_milk.
Proof.
  split; [reflexivity |].
  apply (backspace_leaves_state buy_milk). left. reflexivity.
Defined.

(** "buy milk" split after "buy" and merged back. *)
Lemma split_then_merge_restores_witness :
  activeElement buy_milk = Some 0%nat /\
  items buy_milk !! 0%nat = Some (rendered (plain "buy milk" 0)) /\
  getLevel (el (rendered (plain "buy milk" 0))) = Num 0 /\
  getHTML (getItemInput (rendered (plain "buy milk" 0))) <> [] /\
  exists this1,
    enterPressed buy_milk = Ok this1 /\
    backspace this1 = Ok (set_selection buy_milk (Some 0%nat) 3).
Proof.
  assert (Hne : getHTML (getItemInput (rendered (plain "buy milk" 0))) <> [])
    by discriminate.
  split; [reflexivity |]. split; [reflexivity |].
  split; [reflexivity |]. split; [exact Hne |].
  destruct (split_then_merge_restores buy_milk 0
              (rendered (plain "buy milk" 0)) 0 eq_refl eq_refl eq_refl
              (or_introl Hne))
    as (this1 & Hrun & _ & Hwhole).
  exists this1. split; [exact Hrun |]. exact (Hwhole eq_refl).
Defined.



(** Shift-Tab on "buy milk" at level 0. *)
Lemma tab_always_gives_a_level_witness :
  activeElement buy_milk = Some 0%nat /\
  items buy_milk !! 0%nat = Some (rendered (plain "buy milk" 0)) /\
  (forall l, getLevel (el (rendered (plain "buy milk" 0))) = Num l ->
             Z.abs l < 2 ^ 53) /\
  exists this' it',
    shiftTab buy_milk = Ok this' /\
    items this' !! 0%nat = Some it' /\
    level_ok (el it').
Proof.
  assert (Hrange : forall l,
            getLevel (el (rendered (plain "buy milk" 0))) = Num l ->
            Z.abs l < 2 ^ 53).
  { intros l Hl. vm_compute in Hl. injection Hl as <-. reflexivity. }
  split; [reflexivity |]. split; [reflexivity |].
  split; [exact Hrange |].
  destruct (tab_always_gives_a_level buy_milk 0
              (rendered (plain "buy milk" 0)) true eq_refl eq_refl Hrange)
    as (this' & it' & Hrun & _ & Hitem & Hok & _).
  exists this', it'. repeat split; assumption.
Defined.



(** "buy milk" saved, loaded and saved again. *)
Lemma save_load_save_witness :
  levels_ok buy_milk /\
  save (render (constructor (Some (save buy_milk)) false 7)) = save buy_milk.
Proof.
  split; [exact (reachable_levels_ok buy_milk reachable_buy_milk) |].
  exact (proj2 (save_load_save buy_milk false 7
                  (reachable_levels_ok buy_milk reachable_buy_milk))).
Defined.

(** Enter at the end of "buy milk". *)
Lemma enter_at_field_ends_witness :
  activeElement buy_milk_end = Some 0%nat /\
  items buy_milk_end !! 0%nat = Some (rendered (plain "buy milk" 0)) /\
  getLevel (el (rendered (plain "buy milk" 0))) = Num 0 /\
  getHTML (getItemInput (rendered (plain "buy milk" 0))) <> [] /\
  focusOffset buy_milk_end
    = length (getItemInput (rendered (plain "buy milk" 0))) /\
  exists this' newItem,
    enterPressed buy_milk_end = Ok this' /\
    items this' = [rendered (plain "buy milk" 0); newItem] /\
    getItemInput newItem = [].
Proof.
  split; [reflexivity |]. split; [reflexivity |].
  split; [reflexivity |]. split; [discriminate |].
  split; [reflexivity |].
  destruct (enter_at_field_ends buy_milk_end 0
              (rendered (plain "buy milk" 0)) 0 eq_refl eq_refl eq_refl
              ltac:(discriminate))
    as (this' & newItem & Hrun & _ & Hend & _).
  destruct (Hend eq_refl) as [Hitems Htext].
  exists this', newItem. repeat split; assumption.
Defined.

(** Tab, then Shift-Tab, on "buy milk". *)
Lemma shiftTab_undoes_tab_witness :
  activeElement buy_milk = Some 0%nat /\
  items buy_milk !! 0%nat = Some (rendered (plain "buy milk" 0)) /\
  getLevel (el (rendered (plain "buy milk" 0))) = Num 0 /\
  0 <= 0 < 2 ^ 53 /\
  exists this1 this2,
    tab buy_milk = Ok this1 /\ shiftTab this1 = Ok this2 /\
    model this2 = model buy_milk.
Proof.
  split; [reflexivity |]. split; [reflexivity |].
  split; [reflexivity |]. split; [lia |].
  exact (proj1 (shiftTab_undoes_tab buy_milk 0
                  (rendered (plain "buy milk" 0)) 0
                  eq_refl eq_refl eq_refl
                  (conj (Z.le_refl 0) eq_refl))).
Defined.
